(** * material-price.py: S3 to Zoho Cliq distribution script

    A shallow embedding of [src/material-price.py] and the properties of
    its orchestration contract.

    Python values are modelled as follows.
    - A [str] is the list of its Unicode code points ([N]).
    - A JSON document ([response.json()]) is a [value].
    - The module-level configuration read from [os.environ] is a [config].
    - Calls that leave the process (HTTP, S3, the file system, stdout) act
      on an explicit [world]; what the outside answers is fixed by an
      [env].  A function of the script is a computation in the monad [M],
      which threads the world and propagates raised exceptions. *)

From Stdlib Require Import List ZArith NArith Bool Lia String Ascii.
From Stdlib Require Import Floats.SpecFloat.
Import ListNotations.

Set Warnings "-register-all".

(* ================================================================== *)
(** ** Strings *)
(* ================================================================== *)

Module Str.

Local Open Scope N_scope.

(** A Python [str]: a sequence of code points. *)
Definition str := list N.

(** A literal of the source, written as a Rocq string of ASCII characters. *)
Definition py (s : string) : str :=
  List.map N_of_ascii (list_ascii_of_string s).

(** A literal that holds double quotes, written here as apostrophes. *)
Definition pyq (s : string) : str :=
  List.map (fun c => if c =? 39 then 34 else c) (py s).

Definition eqb (a b : str) : bool :=
  if list_eq_dec N.eq_dec a b then true else false.

(** Truth value of a [str]: the empty string is falsy. *)
Definition truthy (s : str) : bool :=
  match s with [] => false | _ :: _ => true end.

Definition comma : N := 44.
Definition slash : N := 47.
Definition dot : N := 46.

(** [str.isspace] on one code point (CPython's [_PyUnicode_IsWhitespace]). *)
Definition isspace (c : N) : bool :=
  ((9 <=? c) && (c <=? 13)) || ((28 <=? c) && (c <=? 32))
  || (c =? 133) || (c =? 160) || (c =? 5760)
  || ((8192 <=? c) && (c <=? 8202))
  || (c =? 8232) || (c =? 8233) || (c =? 8239) || (c =? 8287)
  || (c =? 12288).

(** [s.lstrip()]. *)
Fixpoint lstrip (s : str) : str :=
  match s with
  | [] => []
  | c :: r => if isspace c then lstrip r else s
  end.

(** [s.rstrip()]: the suffix is dropped when it is all white space. *)
Fixpoint rstrip (s : str) : str :=
  match s with
  | [] => []
  | c :: r =>
      match rstrip r with
      | [] => if isspace c then [] else [c]
      | r' => c :: r'
      end
  end.

(** [s.strip()]. *)
Definition strip (s : str) : str := rstrip (lstrip s).

(** [s.split(sep)] for a one-character separator: never the empty list,
    ["a,,b"] gives three pieces, the empty string gives one empty piece. *)
Fixpoint split (sep : N) (s : str) : list str :=
  match s with
  | [] => [[]]
  | c :: r =>
      if N.eqb c sep then [] :: split sep r
      else match split sep r with
           | [] => [[c]]
           | p :: ps => (c :: p) :: ps
           end
  end.

(** [sep.join(pieces)]. *)
Fixpoint join (sep : N) (ps : list str) : str :=
  match ps with
  | [] => []
  | [p] => p
  | p :: rest => p ++ sep :: join sep rest
  end.

(** [s.rfind(c)]: index of the last occurrence, -1 when there is none. *)
Fixpoint rfind_from (c : N) (s : str) (i : Z) (last : Z) : Z :=
  match s with
  | [] => last
  | d :: r => rfind_from c r (i + 1)%Z (if N.eqb d c then i else last)
  end.

Definition rfind (c : N) (s : str) : Z := rfind_from c s 0%Z (-1)%Z.

(** Slices [p[i:]] and [p[:i]] for [0 <= i]. *)
Definition slice_from (s : str) (i : Z) : str := skipn (Z.to_nat i) s.
Definition slice_to (s : str) (i : Z) : str := firstn (Z.to_nat i) s.

(** [needle in hay] for two strings: substring test. *)
Fixpoint prefixb (p s : str) : bool :=
  match p, s with
  | [], _ => true
  | _ :: _, [] => false
  | a :: p', b :: s' => N.eqb a b && prefixb p' s'
  end.

Fixpoint substrb (needle hay : str) : bool :=
  prefixb needle hay ||
  match hay with
  | [] => false
  | _ :: r => substrb needle r
  end.

End Str.

Import Str.


(** A file's content. *)
Definition bytes := list Byte.byte.

(* ================================================================== *)
(** ** Path helpers of the Python library (POSIX flavour) *)
(* ================================================================== *)

Module PosixPath.

(** [os.path.basename(p)]: [i = p.rfind('/') + 1; return p[i:]]. *)
Definition basename (p : str) : str :=
  slice_from p (rfind slash p + 1).

(** The loop of [genericpath._splitext] that skips leading dots of the
    file name: [true] when a character other than the dot is met in
    [p[filenameIndex:dotIndex]]. *)
Fixpoint has_non_dot (s : str) : bool :=
  match s with
  | [] => false
  | c :: r => if N.eqb c dot then has_non_dot r else true
  end.

(** [os.path.splitext(p)]: the extension starts at the last dot of the
    last path component, unless that component has only leading dots. *)
Definition splitext (p : str) : str * str :=
  let sepIndex := rfind slash p in
  let dotIndex := rfind dot p in
  if (sepIndex <? dotIndex)%Z
     && has_non_dot (slice_to (slice_from p (sepIndex + 1)) (dotIndex - (sepIndex + 1)))
  then (slice_to p dotIndex, slice_from p dotIndex)
  else (p, []).

Definition startswith_sep (b : str) : bool :=
  match b with c :: _ => N.eqb c slash | [] => false end.

Definition endswith_sep (a : str) : bool :=
  match rev a with c :: _ => N.eqb c slash | [] => false end.

(** [os.path.join(a, b)] for two components. *)
Definition join2 (a b : str) : str :=
  if startswith_sep b then b
  else if negb (truthy a) || endswith_sep a then a ++ b
  else a ++ slash :: b.

End PosixPath.

(* ================================================================== *)
(** ** JSON values and the Python operators applied to them *)
(* ================================================================== *)

(** What [json.loads] can return.  A [VDict] lists the items of a Python
    dict; a key is looked up by its first occurrence. *)
Inductive value : Type :=
| VNone
| VBool (b : bool)
| VInt (z : Z)
| VFloat (f : spec_float)
| VStr (s : str)
| VList (l : list value)
| VDict (d : list (str * value)).

(** Truth value of an object, as tested by [if not x]. *)
Definition value_truthy (v : value) : bool :=
  match v with
  | VNone => false
  | VBool b => b
  | VInt z => negb (z =? 0)%Z
  | VFloat (S754_zero _) => false
  | VFloat _ => true
  | VStr s => truthy s
  | VList l => match l with [] => false | _ => true end
  | VDict d => match d with [] => false | _ => true end
  end.

(** [d.get(k)] on the items of a dict. *)
Fixpoint dict_get (k : str) (d : list (str * value)) : option value :=
  match d with
  | [] => None
  | (k', v) :: r => if Str.eqb k' k then Some v else dict_get k r
  end.

(** [k in d] on the items of a dict. *)
Definition dict_mem (k : str) (d : list (str * value)) : bool :=
  existsb (fun kv => Str.eqb (fst kv) k) d.

(** [x == k] for a string [k]: only an equal string is equal to it. *)
Definition value_eq_str (k : str) (x : value) : bool :=
  match x with
  | VStr s => Str.eqb s k
  | _ => false
  end.

(* ================================================================== *)
(** ** Exceptions, results and the world *)
(* ================================================================== *)

(** The [ValueError]s the script raises, by message. *)
Inductive value_error : Type :=
| MissingCredentials            (* "Missing Zoho OAuth credentials in environment variables" *)
| NoAccessToken (token_data : value) (* "Failed to get access token: {token_data}" *)
| NoUserIds                     (* "No user IDs configured. Set ZOHO_CLIQ_USER_IDS ..." *)
| UserIdsEmpty                  (* "ZOHO_CLIQ_USER_IDS is empty" *)
| BucketOrKeyUnset.             (* "AWS_S3_BUCKET and AWS_S3_FILE_KEY must be set" *)

Inductive exn : Type :=
| ValueError (m : value_error)
| HTTPError (status : Z)        (* response.raise_for_status() *)
| RequestException              (* requests.post: no response was obtained *)
| JSONDecodeError               (* response.json() on a body that is not JSON *)
| AttributeError                (* .get on an object that has none *)
| TypeError                     (* "error" in x for a non-container x *)
| DownloadFailed                (* Exception("Failed to download from S3: ...") *)
| BotoError                     (* a storage error that is not a ClientError *)
| FileNotFoundError
| OSError.

Inductive outcome (A : Type) : Type :=
| Ok (a : A)
| Raise (e : exn).

Arguments Ok {A} a.
Arguments Raise {A} e.

(** An HTTP response as the script reads it: [status_code], [text], and
    the outcome of [response.json()] ([None]: the body is not JSON). *)
Record response : Type := {
  status_code : Z;
  text : str;
  json : option value
}.

(** The form body of the token request. *)
Record token_payload : Type := {
  refresh_token : option str;
  client_id : option str;
  client_secret : option str;
  grant_type : str
}.

(** One multipart upload request.  [req_authorization] is the object
    interpolated after ["Zoho-oauthtoken "]; [req_comments] goes on the wire
    as [json.dumps(comments)]. *)
Record upload_request : Type := {
  req_url : str;
  req_authorization : value;
  req_file_name : str;
  req_file_content : bytes;
  req_comments : list str;
  req_user_id : str;
  req_bot_name : str
}.

(** The lines the script prints. *)
Inductive msg : Type :=
| MsgRule | MsgStart | MsgStep1 | MsgTokenOk | MsgStep2
| MsgDownloaded (bucket key : str)
| MsgStep3
| MsgUsing (n : nat)
| MsgFound (n : nat)
| MsgStep4 (n : nat)
| MsgRequestUrl (u : str)
| MsgUploadOk (uid : str)
| MsgUploadFailed (uid : str) (status : Z)
| MsgResponse (body : str)
| MsgCleaned
| MsgWarnDelete (e : exn)
| MsgSummary
| MsgSuccessful (k n : nat)
| MsgDone.

(** What the process does to the outside, in order. *)
Inductive event : Type :=
| EvTokenPost (u : str) (p : token_payload)
| EvTempCreate (path : str)
| EvS3Download (region bucket key path : str)
| EvCliqPost (r : upload_request)
| EvUnlink (path : str)
| EvPrint (m : msg).

(** The file system (path, content) and the trace of events, oldest first. *)
Record world : Type := {
  fs : list (str * bytes);
  trace : list event
}.

Inductive s3_answer : Type :=
| S3Object (content : bytes)
| S3ClientError
| S3OtherError.

(** What the outside answers.  [None] for a reply: [requests.post] raised
    instead of returning a response.  [cliq_reply n r] answers the
    [n]-th upload request (counting from 0). *)
Record env : Type := {
  token_reply : token_payload -> option response;
  s3_reply : str -> str -> s3_answer;
  cliq_reply : nat -> upload_request -> option response;
  tmp_dir : str;
  tmp_rand : str;
  unlink_fails : bool
}.

(* ================================================================== *)
(** ** Computations: world passing with exceptions *)
(* ================================================================== *)

Definition M (A : Type) : Type := world -> outcome A * world.

Definition ret {A} (a : A) : M A := fun w => (Ok a, w).

Definition raise {A} (e : exn) : M A := fun w => (Raise e, w).

Definition bind {A B} (c : M A) (k : A -> M B) : M B :=
  fun w =>
    match c w with
    | (Ok a, w') => k a w'
    | (Raise e, w') => (Raise e, w')
    end.

Notation "x <- c ;; k" := (bind c (fun x => k))
  (at level 61, c at next level, right associativity).
Notation "c ;;; k" := (bind c (fun _ => k))
  (at level 61, right associativity).

(** [try: c  except Exception as e: h e]. *)
Definition try_except {A} (c : M A) (h : exn -> M A) : M A :=
  fun w =>
    match c w with
    | (Ok a, w') => (Ok a, w')
    | (Raise e, w') => h e w'
    end.

Definition lift {A} (r : outcome A) : M A := fun w => (r, w).

Definition emit (ev : event) : M unit :=
  fun w => (Ok tt, {| fs := fs w; trace := trace w ++ [ev] |}).

Definition print (m : msg) : M unit := emit (EvPrint m).

(** *** The file system *)

Fixpoint fs_lookup (p : str) (f : list (str * bytes)) : option bytes :=
  match f with
  | [] => None
  | (q, c) :: r => if Str.eqb q p then Some c else fs_lookup p r
  end.

Fixpoint fs_remove (p : str) (f : list (str * bytes)) : list (str * bytes) :=
  match f with
  | [] => []
  | (q, c) :: r => if Str.eqb q p then fs_remove p r else (q, c) :: fs_remove p r
  end.

Definition fs_write (p : str) (c : bytes) (f : list (str * bytes)) :=
  (p, c) :: fs_remove p f.

Definition write_file (p : str) (c : bytes) : M unit :=
  fun w => (Ok tt, {| fs := fs_write p c (fs w); trace := trace w |}).

(** [open(path, "rb")] followed by reading the whole file. *)
Definition open_rb (p : str) : M bytes :=
  fun w =>
    match fs_lookup p (fs w) with
    | Some c => (Ok c, w)
    | None => (Raise FileNotFoundError, w)
    end.

(** [os.unlink(path)]. *)
Definition os_unlink (e : env) (p : str) : M unit :=
  emit (EvUnlink p) ;;;
  fun w =>
    if unlink_fails e then (Raise OSError, w)
    else match fs_lookup p (fs w) with
         | None => (Raise FileNotFoundError, w)
         | Some _ => (Ok tt, {| fs := fs_remove p (fs w); trace := trace w |})
         end.

(** [tempfile.NamedTemporaryFile(delete=False, suffix=suffix)] used as a
    context manager whose body only reads [.name]: an empty file named
    [join(tempdir, "tmp" + random + suffix)] is created and kept. *)
Definition named_temporary_file (e : env) (suffix : str) : M str :=
  let name := PosixPath.join2 (tmp_dir e) (py "tmp" ++ tmp_rand e ++ suffix) in
  emit (EvTempCreate name) ;;;
  write_file name [] ;;;
  ret name.

(** *** HTTP *)

(** [response.raise_for_status()]: 4xx and 5xx raise. *)
Definition raise_for_status (r : response) : M unit :=
  if ((400 <=? status_code r) && (status_code r <? 600))%Z
  then raise (HTTPError (status_code r))
  else ret tt.

(** [response.json()]. *)
Definition response_json (r : response) : M value :=
  match json r with
  | Some v => ret v
  | None => raise JSONDecodeError
  end.

(** [requests.post(ZOHO_TOKEN_URL, data=payload, headers=headers)]. *)
Definition post_token (e : env) (u : str) (p : token_payload) : M response :=
  emit (EvTokenPost u p) ;;;
  match token_reply e p with
  | Some r => ret r
  | None => raise RequestException
  end.

(** Number of upload requests sent so far. *)
Definition is_cliq_post (ev : event) : bool :=
  match ev with EvCliqPost _ => true | _ => false end.

Definition cliq_posts (t : list event) : nat :=
  List.length (filter is_cliq_post t).

(** [requests.post(url, headers=headers, files=files, data=data)]. *)
Definition post_cliq (e : env) (r : upload_request) : M response :=
  fun w =>
    let n := cliq_posts (trace w) in
    let w' := {| fs := fs w; trace := trace w ++ [EvCliqPost r] |} in
    match cliq_reply e n r with
    | Some resp => (Ok resp, w')
    | None => (Raise RequestException, w')
    end.

(* ================================================================== *)
(** ** The script *)
(* ================================================================== *)

(** *** Configuration from environment variables *)

Fixpoint environ_get (environ : list (str * str)) (k : str) : option str :=
  match environ with
  | [] => None
  | (k', v) :: r => if Str.eqb k' k then Some v else environ_get r k
  end.

Definition environ_get_default (environ : list (str * str)) (k d : str) : str :=
  match environ_get environ k with
  | Some v => v
  | None => d
  end.

Record config : Type := {
  ZOHO_REFRESH_TOKEN : option str;
  ZOHO_CLIENT_ID : option str;
  ZOHO_CLIENT_SECRET : option str;
  ZOHO_CLIQ_USER_IDS : str;
  ZOHO_BOT_NAME : str;
  AWS_S3_BUCKET : option str;
  AWS_S3_FILE_KEY : option str;
  AWS_REGION : str
}.

Definition load_config (environ : list (str * str)) : config := {|
  ZOHO_REFRESH_TOKEN := environ_get environ (py "ZOHO_REFRESH_TOKEN");
  ZOHO_CLIENT_ID := environ_get environ (py "ZOHO_CLIENT_ID");
  ZOHO_CLIENT_SECRET := environ_get environ (py "ZOHO_CLIENT_SECRET");
  ZOHO_CLIQ_USER_IDS := environ_get_default environ (py "ZOHO_CLIQ_USER_IDS") [];
  ZOHO_BOT_NAME := environ_get_default environ (py "ZOHO_BOT_NAME") (py "Metal Price Tracker");
  AWS_S3_BUCKET := environ_get environ (py "AWS_S3_BUCKET");
  AWS_S3_FILE_KEY := environ_get environ (py "AWS_S3_FILE_KEY");
  AWS_REGION := environ_get_default environ (py "AWS_REGION") (py "ap-south-1")
|}.

Definition ZOHO_TOKEN_URL : str := py "https://accounts.zoho.in/oauth/v2/token".
Definition ZOHO_CLIQ_FILES_URL : str :=
  py "https://cliq.zoho.in/api/v2/bots/policychatbotv/files".

(** Truth value of a setting that may be [None]. *)
Definition opt_truthy (o : option str) : bool :=
  match o with
  | Some s => truthy s
  | None => false
  end.

(** Python's [all]. *)
Definition all (l : list bool) : bool := forallb (fun b => b) l.

(** *** Zoho OAuth token management *)

Definition get_zoho_access_token (cfg : config) (e : env) : M value :=
  if negb (all [opt_truthy (ZOHO_REFRESH_TOKEN cfg);
                opt_truthy (ZOHO_CLIENT_ID cfg);
                opt_truthy (ZOHO_CLIENT_SECRET cfg)])
  then raise (ValueError MissingCredentials)
  else
    let payload := {|
      refresh_token := ZOHO_REFRESH_TOKEN cfg;
      client_id := ZOHO_CLIENT_ID cfg;
      client_secret := ZOHO_CLIENT_SECRET cfg;
      grant_type := py "refresh_token"
    |} in
    response <- post_token e ZOHO_TOKEN_URL payload ;;
    raise_for_status response ;;;
    token_data <- response_json response ;;
    access_token <-
      match token_data with
      | VDict d => ret (match dict_get (py "access_token") d with
                        | Some v => v
                        | None => VNone
                        end)
      | _ => raise AttributeError
      end ;;
    if negb (value_truthy access_token)
    then raise (ValueError (NoAccessToken token_data))
    else
      print MsgTokenOk ;;;
      ret access_token.

(** *** AWS S3 integration *)

Definition download_file_from_s3 (cfg : config) (e : env)
    (bucket key local_path : str) : M str :=
  emit (EvS3Download (AWS_REGION cfg) bucket key local_path) ;;;
  match s3_reply e bucket key with
  | S3Object content =>
      write_file local_path content ;;;
      print (MsgDownloaded bucket key) ;;;
      ret local_path
  | S3ClientError => raise DownloadFailed
  | S3OtherError => raise BotoError
  end.

Definition get_user_ids (cfg : config) : M (list str) :=
  if negb (truthy (ZOHO_CLIQ_USER_IDS cfg))
  then raise (ValueError NoUserIds)
  else
    let user_ids :=
      List.map strip
        (filter (fun uid => truthy (strip uid))
                (split comma (ZOHO_CLIQ_USER_IDS cfg))) in
    match user_ids with
    | [] => raise (ValueError UserIdsEmpty)
    | _ :: _ =>
        print (MsgUsing (List.length user_ids)) ;;;
        ret user_ids
    end.

(** *** Zoho Cliq file upload *)

(** The dict returned for a response whose status is not 200. *)
Definition error_result (r : response) : value :=
  VDict [(py "error", VStr (text r)); (py "status_code", VInt (status_code r))].

Definition upload_file_to_zoho_cliq (e : env) (access_token : value)
    (file_path user_id bot_name : str) (comments : option (list str)) : M value :=
  (* the URL has no replacement field: [.format(bot_name=...)] leaves it as is *)
  let url := ZOHO_CLIQ_FILES_URL in
  print (MsgRequestUrl url) ;;;
  let comments :=
    match comments with
    | None => [py "Server image"]
    | Some c => c
    end in
  f <- open_rb file_path ;;
  response <- post_cliq e {|
      req_url := url;
      req_authorization := access_token;
      req_file_name := PosixPath.basename file_path;
      req_file_content := f;
      req_comments := comments;
      req_user_id := user_id;
      req_bot_name := bot_name
    |} ;;
  if (status_code response =? 200)%Z
  then
    print (MsgUploadOk user_id) ;;;
    response_json response
  else
    print (MsgUploadFailed user_id (status_code response)) ;;;
    print (MsgResponse (text response)) ;;;
    ret (error_result response).

(** *** Main execution *)

(** One item of [results]: [{"user_id": user_id, "result": result}]. *)
Record entry : Type := {
  user_id : str;
  result : value
}.

(** [for user_id in user_ids: ... results.append(...)]. *)
Fixpoint upload_loop (cfg : config) (e : env) (access_token : value)
    (local_file_path : str) (user_ids : list str) (results : list entry)
    : M (list entry) :=
  match user_ids with
  | [] => ret results
  | uid :: rest =>
      r <- upload_file_to_zoho_cliq e access_token local_file_path uid
             (ZOHO_BOT_NAME cfg) (Some [py "Metal Price Update"]) ;;
      upload_loop cfg e access_token local_file_path rest
        (results ++ [{| user_id := uid; result := r |}])
  end.

(** ["error" in x]. *)
Definition contains_error (x : value) : outcome bool :=
  match x with
  | VDict d => Ok (dict_mem (py "error") d)
  | VList l => Ok (existsb (value_eq_str (py "error")) l)
  | VStr s => Ok (substrb (py "error") s)
  | _ => Raise TypeError
  end.

(** [sum(1 for r in results if "error" not in r.get("result", {}))]. *)
Fixpoint count_successful (results : list entry) : outcome nat :=
  match results with
  | [] => Ok 0
  | r :: rest =>
      match contains_error (result r) with
      | Raise x => Raise x
      | Ok b =>
          match count_successful rest with
          | Raise x => Raise x
          | Ok n => Ok (if b then n else S n)
          end
      end
  end.

(** The block [# Cleanup temporary file] of [main]. *)
Definition cleanup (e : env) (local_file_path : str) : M unit :=
  try_except
    (os_unlink e local_file_path ;;; print MsgCleaned)
    (fun x => print (MsgWarnDelete x)).

(** The block [# Summary] of [main]. *)
Definition summary (results : list entry) : M unit :=
  print MsgRule ;;; print MsgSummary ;;; print MsgRule ;;;
  successful <- lift (count_successful results) ;;
  print (MsgSuccessful successful (List.length results)) ;;;
  print MsgDone.

Definition main (cfg : config) (e : env) : M (list entry) :=
  print MsgRule ;;; print MsgStart ;;; print MsgRule ;;;
  print MsgStep1 ;;;
  access_token <- get_zoho_access_token cfg e ;;
  print MsgStep2 ;;;
  match AWS_S3_BUCKET cfg, AWS_S3_FILE_KEY cfg with
  | Some bucket, Some key =>
      if negb (truthy bucket) || negb (truthy key)
      then raise (ValueError BucketOrKeyUnset)
      else
        local_file_path <- named_temporary_file e (snd (PosixPath.splitext key)) ;;
        download_file_from_s3 cfg e bucket key local_file_path ;;;
        print MsgStep3 ;;;
        user_ids <- get_user_ids cfg ;;
        print (MsgFound (List.length user_ids)) ;;;
        print (MsgStep4 (List.length user_ids)) ;;;
        results <- upload_loop cfg e access_token local_file_path user_ids [] ;;
        cleanup e local_file_path ;;;
        summary results ;;;
        ret results
  | _, _ => raise (ValueError BucketOrKeyUnset)
  end.

(** The world a run starts in: no scratch file, nothing done yet. *)
Definition initial_world : world := {| fs := []; trace := [] |}.

(* ================================================================== *)
(** ** Vocabulary of the specification *)
(* ================================================================== *)

(** [s] does not begin with white space. *)
Definition no_lead_space (s : str) : Prop :=
  match s with
  | [] => True
  | c :: _ => isspace c = false
  end.

(** [s] does not end with white space. *)
Definition no_trail_space (s : str) : Prop := no_lead_space (rev s).

(** [t] is [x] without its leading and trailing white space. *)
Definition is_trim_of (x t : str) : Prop :=
  exists l r, x = l ++ t ++ r
    /\ forallb isspace l = true /\ forallb isspace r = true
    /\ no_lead_space t /\ no_trail_space t.

(** [ps] are the entries of [s] between its commas. *)
Definition comma_pieces (s : str) (ps : list str) : Prop :=
  ps <> [] /\ Forall (fun p => ~ In comma p) ps /\ join comma ps = s.

(** [ids] are the entries [ps], each trimmed, without those that are
    empty once trimmed, in the same order and as many times. *)
Inductive kept : list str -> list str -> Prop :=
| kept_nil : kept [] []
| kept_drop p ps ids :
    is_trim_of p [] -> kept ps ids -> kept (p :: ps) ids
| kept_keep p t ps ids :
    is_trim_of p t -> t <> [] -> kept ps ids -> kept (p :: ps) (t :: ids).

(** The recipient resolver as the specification words it. *)
Definition spec_resolves (s : str) (ids : list str) : Prop :=
  exists ps, comma_pieces s ps /\ kept ps ids.

(** A well-formed recipient identifier: not empty, no comma, no white
    space at either end. *)
Definition wf_id (u : str) : Prop :=
  u <> [] /\ ~ In comma u /\ no_lead_space u /\ no_trail_space u.

(** The list comprehension of [get_user_ids]. *)
Definition parse_user_ids (s : str) : list str :=
  List.map strip (filter (fun uid => truthy (strip uid)) (split comma s)).

(** The world [w] after the events [evs], the files untouched. *)
Definition add_events (w : world) (evs : list event) : world :=
  {| fs := fs w; trace := trace w ++ evs |}.

Definition is_print (ev : event) : bool :=
  match ev with EvPrint _ => true | _ => false end.

(** The events that reach outside the process's own console. *)
Definition external (evs : list event) : list event :=
  filter (fun ev => negb (is_print ev)) evs.



(** The name [main] gives its scratch file for the object key [key]. *)
Definition scratch_path (e : env) (key : str) : str :=
  PosixPath.join2 (tmp_dir e) (py "tmp" ++ tmp_rand e ++ snd (PosixPath.splitext key)).

(** The request an upload sends. *)
Definition upload_request_for (access_token : value) (path : str)
    (content : bytes) (uid bot : str) (comments : option (list str))
    : upload_request := {|
  req_url := ZOHO_CLIQ_FILES_URL;
  req_authorization := access_token;
  req_file_name := PosixPath.basename path;
  req_file_content := content;
  req_comments := match comments with
                  | None => [py "Server image"]
                  | Some c => c
                  end;
  req_user_id := uid;
  req_bot_name := bot
|}.

(** The request [main] sends for the recipient [uid]. *)
Definition request_of (cfg : config) (access_token : value)
    (path : str) (content : bytes) (uid : str) : upload_request :=
  upload_request_for access_token path content uid (ZOHO_BOT_NAME cfg)
    (Some [py "Metal Price Update"]).

(** The form the token request carries. *)
Definition token_payload_of (cfg : config) : token_payload := {|
  refresh_token := ZOHO_REFRESH_TOKEN cfg;
  client_id := ZOHO_CLIENT_ID cfg;
  client_secret := ZOHO_CLIENT_SECRET cfg;
  grant_type := py "refresh_token"
|}.

(** Every upload request is answered by an HTTP response, and a
    response with status 200 has a JSON body. *)
Definition answered (e : env) : Prop :=
  forall n r, exists resp,
    cliq_reply e n r = Some resp /\
    (status_code resp = 200%Z -> json resp <> None).


(** The lines [main] prints before it asks for a token. *)
Definition banner : list event :=
  [EvPrint MsgRule; EvPrint MsgStart; EvPrint MsgRule; EvPrint MsgStep1].

(** The world in which the download is asked for: the scratch file has
    been created empty. *)
Definition world_at_download (cfg : config) (e : env) (b k : str) (w : world) : world :=
  let path := scratch_path e k in
  {| fs := fs_write path [] (fs w);
     trace := trace w ++ [EvPrint MsgStep2; EvTempCreate path;
                          EvS3Download (AWS_REGION cfg) b k path] |}.

(** The world in which the recipients are resolved: the scratch file
    holds the object. *)
Definition world_at_resolve (cfg : config) (e : env) (b k : str)
    (content : bytes) (w : world) : world :=
  let path := scratch_path e k in
  let w3 := world_at_download cfg e b k w in
  {| fs := fs_write path content (fs w3);
     trace := trace w3 ++ [EvPrint (MsgDownloaded b k); EvPrint MsgStep3] |}.

(** The world in which the first upload starts. *)
Definition world_at_upload (cfg : config) (e : env) (b k : str)
    (content : bytes) (ids : list str) (w : world) : world :=
  add_events (world_at_resolve cfg e b k content w)
    [EvPrint (MsgUsing (List.length ids)); EvPrint (MsgFound (List.length ids));
     EvPrint (MsgStep4 (List.length ids))].

(** The end of [main], from the cleanup on. *)
Definition finish (e : env) (path : str) (results : list entry) : M (list entry) :=
  cleanup e path ;;; summary results ;;; ret results.

(** What the loop records for a response. *)
Definition recorded (resp : response) (v : value) : Prop :=
  (status_code resp = 200%Z /\ json resp = Some v) \/
  (status_code resp <> 200%Z /\ v = error_result resp).

(** All three OAuth credentials are set and not empty. *)
Definition credentials_set (cfg : config) : bool :=
  opt_truthy (ZOHO_REFRESH_TOKEN cfg) && opt_truthy (ZOHO_CLIENT_ID cfg)
  && opt_truthy (ZOHO_CLIENT_SECRET cfg).

(** The summary's test on one item whose result is a dict. *)
Definition lacks_error_key (r : entry) : bool :=
  match result r with
  | VDict d => negb (dict_mem (py "error") d)
  | _ => false
  end.

Definition is_dict (v : value) : Prop := exists d, v = VDict d.

(** *** The shape of a run *)

(** The token request of a run. *)
Definition token_post (cfg : config) : event :=
  EvTokenPost ZOHO_TOKEN_URL (token_payload_of cfg).

(** Creating the scratch file and asking for the object. *)
Definition staged (cfg : config) (e : env) (b k : str) : list event :=
  [EvTempCreate (scratch_path e k);
   EvS3Download (AWS_REGION cfg) b k (scratch_path e k)].

(** The upload requests for the first [n] resolved recipients. *)
Definition posts (cfg : config) (e : env) (tok : value) (k : str)
    (content : bytes) (n : nat) : list event :=
  List.map
    (fun uid => EvCliqPost (request_of cfg tok (scratch_path e k) content uid))
    (firstn n (parse_user_ids (ZOHO_CLIQ_USER_IDS cfg))).

(** What [main] returns once the loop has returned [results]. *)
Definition report (results : list entry) : outcome (list entry) :=
  match count_successful results with
  | Ok _ => Ok results
  | Raise x => Raise x
  end.

(** The outcome of a run of [main] from [w] and what it did outside,
    stage by stage. *)
Inductive run_shape (cfg : config) (e : env) (w : world)
  : outcome (list entry) -> list event -> Prop :=
| run_no_credentials :
    credentials_set cfg = false ->
    run_shape cfg e w (Raise (ValueError MissingCredentials)) []
| run_token_failed x :
    credentials_set cfg = true ->
    fst (get_zoho_access_token cfg e (add_events w banner)) = Raise x ->
    run_shape cfg e w (Raise x) [token_post cfg]
| run_no_bucket tok :
    fst (get_zoho_access_token cfg e (add_events w banner)) = Ok tok ->
    opt_truthy (AWS_S3_BUCKET cfg) && opt_truthy (AWS_S3_FILE_KEY cfg) = false ->
    run_shape cfg e w (Raise (ValueError BucketOrKeyUnset)) [token_post cfg]
| run_download_failed tok b k x :
    fst (get_zoho_access_token cfg e (add_events w banner)) = Ok tok ->
    AWS_S3_BUCKET cfg = Some b -> AWS_S3_FILE_KEY cfg = Some k ->
    truthy b = true -> truthy k = true ->
    (s3_reply e b k = S3ClientError /\ x = DownloadFailed \/
     s3_reply e b k = S3OtherError /\ x = BotoError) ->
    run_shape cfg e w (Raise x) (token_post cfg :: staged cfg e b k)
| run_no_recipients tok b k content :
    fst (get_zoho_access_token cfg e (add_events w banner)) = Ok tok ->
    AWS_S3_BUCKET cfg = Some b -> AWS_S3_FILE_KEY cfg = Some k ->
    truthy b = true -> truthy k = true ->
    s3_reply e b k = S3Object content ->
    parse_user_ids (ZOHO_CLIQ_USER_IDS cfg) = [] ->
    run_shape cfg e w
      (Raise (ValueError (if truthy (ZOHO_CLIQ_USER_IDS cfg)
                          then UserIdsEmpty else NoUserIds)))
      (token_post cfg :: staged cfg e b k)
| run_upload_raised tok b k content n x :
    fst (get_zoho_access_token cfg e (add_events w banner)) = Ok tok ->
    AWS_S3_BUCKET cfg = Some b -> AWS_S3_FILE_KEY cfg = Some k ->
    truthy b = true -> truthy k = true ->
    s3_reply e b k = S3Object content ->
    1 <= n <= List.length (parse_user_ids (ZOHO_CLIQ_USER_IDS cfg)) ->
    x = RequestException \/ x = JSONDecodeError ->
    run_shape cfg e w (Raise x)
      (token_post cfg :: staged cfg e b k ++ posts cfg e tok k content n)
| run_finished tok b k content results :
    fst (get_zoho_access_token cfg e (add_events w banner)) = Ok tok ->
    AWS_S3_BUCKET cfg = Some b -> AWS_S3_FILE_KEY cfg = Some k ->
    truthy b = true -> truthy k = true ->
    s3_reply e b k = S3Object content ->
    parse_user_ids (ZOHO_CLIQ_USER_IDS cfg) <> [] ->
    List.map user_id results = parse_user_ids (ZOHO_CLIQ_USER_IDS cfg) ->
    run_shape cfg e w (report results)
      (token_post cfg :: staged cfg e b k
       ++ posts cfg e tok k content
            (List.length (parse_user_ids (ZOHO_CLIQ_USER_IDS cfg)))
       ++ [EvUnlink (scratch_path e k)]).

(** *** The summary on any result *)

(** A result on which ["error" in x] is defined. *)
Definition is_container (v : value) : bool :=
  match v with
  | VDict _ | VList _ | VStr _ => true
  | _ => false
  end.

(** ["error" in x] on a container: a key of a dict, an item of a list,
    a substring of a string. *)
Definition has_error (v : value) : bool :=
  match v with
  | VDict d => dict_mem (py "error") d
  | VList l => existsb (value_eq_str (py "error")) l
  | VStr s => substrb (py "error") s
  | _ => false
  end.


(** Number of commas in a string. *)
Definition commas (s : str) : nat :=
  List.length (filter (fun c => N.eqb c comma) s).

(** *** Sample inputs *)

(** A complete configuration with three recipients. *)
Definition sample_environ : list (str * str) :=
  [(py "ZOHO_REFRESH_TOKEN", py "1000.refresh");
   (py "ZOHO_CLIENT_ID", py "1000.client");
   (py "ZOHO_CLIENT_SECRET", py "secret");
   (py "ZOHO_CLIQ_USER_IDS", py "101,102,103");
   (py "AWS_S3_BUCKET", py "prices");
   (py "AWS_S3_FILE_KEY", py "daily/metal.xlsx")].

Definition sample_config : config := load_config sample_environ.

Definition token_response : response := {|
  status_code := 200;
  text := pyq "{'access_token': '1000.access'}";
  json := Some (VDict [(py "access_token", VStr (py "1000.access"))])
|}.

Definition upload_response : response := {|
  status_code := 200;
  text := pyq "{'status': 'sent'}";
  json := Some (VDict [(py "status", VStr (py "sent"))])
|}.

Definition server_error : response := {|
  status_code := 500;
  text := py "Internal Server Error";
  json := None
|}.

(** A 200 response whose body is not JSON. *)
Definition html_response : response := {|
  status_code := 200;
  text := py "<html>OK</html>";
  json := None
|}.

(** A 200 response whose JSON body reports an error. *)
Definition soft_error_response : response := {|
  status_code := 200;
  text := pyq "{'error': 'user not found'}";
  json := Some (VDict [(py "error", VStr (py "user not found"))])
|}.

(** The object in the bucket. *)
Definition sample_object : bytes := [Byte.x50; Byte.x4b; Byte.x03; Byte.x04].

(** An outside where the token exchange and the download succeed; the
    uploads are answered by [cliq]. *)
Definition sample_env (cliq : nat -> upload_request -> option response) : env := {|
  token_reply := fun _ => Some token_response;
  s3_reply := fun _ _ => S3Object sample_object;
  cliq_reply := cliq;
  tmp_dir := py "/tmp";
  tmp_rand := py "ab12cd34";
  unlink_fails := false
|}.

Definition all_delivered (n : nat) (r : upload_request) : option response :=
  Some upload_response.

(** The second upload is answered with HTTP 500. *)
Definition second_fails (n : nat) (r : upload_request) : option response :=
  if Nat.eqb n 1 then Some server_error else Some upload_response.

(** The second upload gets no response: a network error. *)
Definition second_unreachable (n : nat) (r : upload_request) : option response :=
  if Nat.eqb n 1 then None else Some upload_response.




(** A recipient setting made of commas and white space only. *)
Definition blank_environ : list (str * str) :=
  [(py "ZOHO_CLIQ_USER_IDS", py " , ,,  ")].

(** A recipient setting with padding, an empty entry and a repeated id. *)
Definition padded_environ : list (str * str) :=
  [(py "ZOHO_CLIQ_USER_IDS", py "  60019117005 ,60019117006,, 60019117005")].

(** A recipient setting in which an id occurs twice. *)
Definition repeated_ids : list str :=
  [py "60019117005"; py "60019117006"; py "60019117005"].

Definition repeated_environ : list (str * str) :=
  [(py "ZOHO_CLIQ_USER_IDS", join comma repeated_ids)].

(* ================================================================== *)
(** ** Facts about strings *)
(* ================================================================== *)

Section StrFacts.

Lemma eqb_eq (a b : str) : Str.eqb a b = true <-> a = b.
Proof.
  unfold Str.eqb. destruct (list_eq_dec N.eq_dec a b); split; congruence.
Qed.

Lemma eqb_refl (a : str) : Str.eqb a a = true.
Proof. now apply eqb_eq. Qed.

Lemma eqb_neq (a b : str) : Str.eqb a b = false <-> a <> b.
Proof.
  unfold Str.eqb. destruct (list_eq_dec N.eq_dec a b); split; congruence.
Qed.

Lemma truthy_true (s : str) : truthy s = true <-> s <> [].
Proof. destruct s; simpl; split; congruence. Qed.

Lemma truthy_false (s : str) : truthy s = false <-> s = [].
Proof. destruct s; simpl; split; congruence. Qed.

(** [split] never returns the empty list. *)
Lemma split_not_nil (sep : N) (s : str) : split sep s <> [].
Proof.
  induction s as [|c r IH]; simpl; [discriminate|].
  destruct (N.eqb c sep); [discriminate|].
  destruct (split sep r); discriminate.
Qed.

(** Joining the pieces gives the string back. *)
Lemma join_split (sep : N) (s : str) : join sep (split sep s) = s.
Proof.
  induction s as [|c r IH]; simpl; [reflexivity|].
  destruct (N.eqb c sep) eqn:E.
  - apply N.eqb_eq in E. subst c.
    pose proof (split_not_nil sep r) as Hne.
    destruct (split sep r) as [|p ps]; [congruence|].
    simpl in *. now rewrite IH.
  - pose proof (split_not_nil sep r) as Hne.
    destruct (split sep r) as [|p ps]; [congruence|].
    simpl in *. destruct ps; simpl in *; now rewrite <- IH.
Qed.

(** No piece holds the separator. *)
Lemma split_no_sep (sep : N) (s : str) :
  Forall (fun p => ~ In sep p) (split sep s).
Proof.
  induction s as [|c r IH]; simpl.
  - constructor; [intros []|constructor].
  - destruct (N.eqb c sep) eqn:E.
    + constructor; [intros []|exact IH].
    + apply N.eqb_neq in E.
      destruct (split sep r) as [|p ps].
      * constructor; [|constructor]. intros [H|[]]; congruence.
      * inversion IH; subst. constructor; [|assumption].
        intros [H|H]; [congruence|contradiction].
Qed.

(** [split] undoes [join] on pieces free of the separator. *)
Lemma split_piece (sep : N) (p rest : str) :
  ~ In sep p ->
  split sep (p ++ sep :: rest) = p :: split sep rest.
Proof.
  induction p as [|c p IH]; simpl; intros Hp.
  - now rewrite N.eqb_refl.
  - destruct (N.eqb c sep) eqn:E.
    + apply N.eqb_eq in E. exfalso. apply Hp. now left.
    + rewrite IH; [reflexivity|]. intros H. apply Hp. now right.
Qed.

Lemma split_last_piece (sep : N) (p : str) :
  ~ In sep p -> split sep p = [p].
Proof.
  induction p as [|c p IH]; simpl; intros Hp; [reflexivity|].
  destruct (N.eqb c sep) eqn:E.
  - apply N.eqb_eq in E. exfalso. apply Hp. now left.
  - rewrite IH; [reflexivity|]. intros H. apply Hp. now right.
Qed.

Lemma split_join (sep : N) (ps : list str) :
  ps <> [] ->
  Forall (fun p => ~ In sep p) ps ->
  split sep (join sep ps) = ps.
Proof.
  induction ps as [|p rest IH]; intros Hne Hall; [congruence|].
  inversion Hall as [|? ? Hp Hrest]; subst.
  destruct rest as [|q rest'].
  - simpl. now apply split_last_piece.
  - change (join sep (p :: q :: rest')) with (p ++ sep :: join sep (q :: rest')).
    rewrite split_piece by assumption.
    rewrite IH; [reflexivity|discriminate|assumption].
Qed.

(** *** Trimming *)

Lemma lstrip_spec (s : str) :
  exists l, s = l ++ lstrip s /\ forallb isspace l = true /\ no_lead_space (lstrip s).
Proof.
  induction s as [|c r (l & E & Hl & Hn)]; simpl.
  - exists []. repeat split.
  - destruct (isspace c) eqn:Ec.
    + exists (c :: l). simpl. rewrite Ec, Hl. repeat split; [now f_equal|assumption].
    + exists []. simpl. repeat split. assumption.
Qed.

Lemma no_trail_space_cons (c : N) (s : str) :
  s <> [] -> no_trail_space s -> no_trail_space (c :: s).
Proof.
  unfold no_trail_space. simpl. intros Hne H.
  destruct (rev s) as [|d t] eqn:E.
  - apply (f_equal (@rev N)) in E. rewrite rev_involutive in E. simpl in E. congruence.
  - simpl. exact H.
Qed.

Lemma rstrip_spec (s : str) :
  exists r, s = rstrip s ++ r /\ forallb isspace r = true /\ no_trail_space (rstrip s).
Proof.
  induction s as [|c t (r & E & Hr & Hn)]; simpl.
  - exists []. repeat split.
  - destruct (rstrip t) as [|d t'] eqn:Et.
    + simpl in E. subst t. destruct (isspace c) eqn:Ec.
      * exists (c :: r). simpl. rewrite Ec, Hr. repeat split.
      * exists r. repeat split; [assumption|]. unfold no_trail_space. simpl. assumption.
    + exists r. repeat split; [simpl; now f_equal|assumption|].
      apply no_trail_space_cons; [discriminate|assumption].
Qed.

Lemma rstrip_head (c : N) (s : str) :
  isspace c = false -> exists t, rstrip (c :: s) = c :: t.
Proof.
  intros Hc. simpl. destruct (rstrip s) as [|d t].
  - rewrite Hc. now exists [].
  - now exists (d :: t).
Qed.

Lemma rstrip_no_lead (s : str) : no_lead_space s -> no_lead_space (rstrip s).
Proof.
  destruct s as [|c s]; [intros _; exact I|].
  simpl. intros Hc. destruct (rstrip_head c s Hc) as [t Ht].
  simpl in Ht. rewrite Ht. exact Hc.
Qed.

Lemma strip_is_trim (x : str) : is_trim_of x (strip x).
Proof.
  unfold strip.
  destruct (lstrip_spec x) as (l & El & Hl & Hn).
  destruct (rstrip_spec (lstrip x)) as (r & Er & Hr & Hn').
  exists l, r. repeat split; try assumption.
  - rewrite <- Er. exact El.
  - now apply rstrip_no_lead.
Qed.

Lemma lstrip_id (s : str) : no_lead_space s -> lstrip s = s.
Proof.
  destruct s as [|c s]; simpl; [reflexivity|]. intros H. now rewrite H.
Qed.

Lemma rstrip_id (s : str) : no_trail_space s -> rstrip s = s.
Proof.
  induction s as [|c t IH]; [reflexivity|].
  unfold no_trail_space. simpl. intros H.
  destruct t as [|d t'].
  - simpl in *. now rewrite H.
  - assert (Ht : no_trail_space (d :: t')).
    { unfold no_trail_space. simpl in *.
      destruct (rev t' ++ [d]) eqn:E; [destruct (rev t'); discriminate|].
      simpl in H. exact H. }
    change (rstrip (c :: d :: t')) with
      (match rstrip (d :: t') with
       | [] => if isspace c then [] else [c]
       | r' => c :: r' end).
    rewrite (IH Ht). reflexivity.
Qed.

Lemma strip_id (s : str) : no_lead_space s -> no_trail_space s -> strip s = s.
Proof.
  intros H1 H2. unfold strip. rewrite lstrip_id by assumption. now apply rstrip_id.
Qed.

(** A string made of white space only is trimmed to the empty string. *)
Lemma lstrip_all_space (s : str) : forallb isspace s = true -> lstrip s = [].
Proof.
  induction s as [|c s IH]; simpl; [reflexivity|].
  intros H. apply andb_true_iff in H as [Hc Hs]. rewrite Hc. now apply IH.
Qed.

Lemma strip_all_space (s : str) : forallb isspace s = true -> strip s = [].
Proof.
  intros H. unfold strip. now rewrite lstrip_all_space.
Qed.

End StrFacts.

(* ================================================================== *)
(** ** The recipient resolver *)
(* ================================================================== *)

Section Resolver.

Lemma lstrip_app_space (l s : str) :
  forallb isspace l = true -> lstrip (l ++ s) = lstrip s.
Proof.
  induction l as [|c l IH]; simpl; [reflexivity|].
  intros H. apply andb_true_iff in H as [Hc Hl]. rewrite Hc. now apply IH.
Qed.

Lemma rstrip_all_space (r : str) : forallb isspace r = true -> rstrip r = [].
Proof.
  induction r as [|c r IH]; simpl; [reflexivity|].
  intros H. apply andb_true_iff in H as [Hc Hr]. rewrite (IH Hr). now rewrite Hc.
Qed.

Lemma rstrip_app_space (t r : str) :
  forallb isspace r = true -> rstrip (t ++ r) = rstrip t.
Proof.
  intros Hr. induction t as [|c t IH]; simpl.
  - now apply rstrip_all_space.
  - now rewrite IH.
Qed.

(** Trimming has one answer, the one [strip] computes. *)
Lemma is_trim_of_strip (x t : str) : is_trim_of x t -> t = strip x.
Proof.
  intros (l & r & E & Hl & Hr & Hlead & Htrail). subst x.
  unfold strip. rewrite lstrip_app_space by assumption.
  destruct t as [|c t'].
  - simpl. rewrite lstrip_all_space by assumption. reflexivity.
  - simpl in Hlead. simpl. rewrite Hlead.
    change (c :: t' ++ r) with ((c :: t') ++ r).
    rewrite rstrip_app_space by assumption.
    symmetry. now apply rstrip_id.
Qed.

Lemma comma_pieces_split (s : str) (ps : list str) :
  comma_pieces s ps <-> ps = split comma s.
Proof.
  split.
  - intros (Hne & Hall & E). subst s. symmetry. now apply split_join.
  - intros ->. repeat split.
    + apply split_not_nil.
    + apply split_no_sep.
    + apply join_split.
Qed.

Lemma kept_filter (ps ids : list str) :
  kept ps ids <-> ids = List.map strip (filter (fun uid => truthy (strip uid)) ps).
Proof.
  split.
  - induction 1 as [|p ps ids Ht _ IH|p t ps ids Ht Hne _ IH]; simpl.
    + reflexivity.
    + apply is_trim_of_strip in Ht. rewrite <- Ht. simpl. exact IH.
    + apply is_trim_of_strip in Ht. rewrite <- Ht.
      apply truthy_true in Hne. rewrite Hne. simpl. rewrite <- Ht. now f_equal.
  - revert ids. induction ps as [|p ps IH]; intros ids ->; simpl.
    + constructor.
    + destruct (truthy (strip p)) eqn:E; simpl.
      * apply kept_keep; [apply strip_is_trim|now apply truthy_true|now apply IH].
      * apply kept_drop; [|now apply IH].
        apply truthy_false in E. rewrite <- E. apply strip_is_trim.
Qed.

(** The specification's wording and the comprehension agree. *)
Lemma spec_resolves_parse (s : str) (ids : list str) :
  spec_resolves s ids <-> ids = parse_user_ids s.
Proof.
  unfold spec_resolves, parse_user_ids. split.
  - intros (ps & Hps & Hk). apply comma_pieces_split in Hps. subst ps.
    now apply kept_filter.
  - intros ->. exists (split comma s). split.
    + now apply comma_pieces_split.
    + now apply kept_filter.
Qed.

(** [get_user_ids] in one equation. *)
Lemma get_user_ids_eq (cfg : config) (w : world) :
  get_user_ids cfg w =
  match parse_user_ids (ZOHO_CLIQ_USER_IDS cfg) with
  | [] =>
      (Raise (ValueError (if truthy (ZOHO_CLIQ_USER_IDS cfg)
                          then UserIdsEmpty else NoUserIds)), w)
  | ids =>
      (Ok ids, {| fs := fs w;
                  trace := trace w ++ [EvPrint (MsgUsing (List.length ids))] |})
  end.
Proof.
  unfold get_user_ids, parse_user_ids.
  destruct (ZOHO_CLIQ_USER_IDS cfg) as [|c s] eqn:E; [reflexivity|].
  cbv beta iota delta [truthy negb].
  destruct (List.map strip (filter _ (split comma (c :: s)))); reflexivity.
Qed.

Lemma parse_user_ids_join (ids : list str) :
  ids <> [] -> Forall wf_id ids -> parse_user_ids (join comma ids) = ids.
Proof.
  intros Hne Hall. unfold parse_user_ids.
  rewrite split_join.
  - clear Hne. induction Hall as [|u ids (Hu & _ & Hl & Ht) _ IH]; simpl; [reflexivity|].
    rewrite (strip_id u Hl Ht). apply truthy_true in Hu. rewrite Hu. simpl.
    rewrite (strip_id u Hl Ht). now f_equal.
  - assumption.
  - eapply Forall_impl; [|exact Hall]. intros u (_ & Hc & _). exact Hc.
Qed.

Lemma split_all_blank (s : str) :
  forallb (fun c => N.eqb c comma || isspace c) s = true ->
  Forall (fun p => forallb isspace p = true) (split comma s).
Proof.
  induction s as [|c s IH]; simpl; intros H.
  - repeat constructor.
  - apply andb_true_iff in H as [Hc Hs]. specialize (IH Hs).
    destruct (N.eqb c comma) eqn:E.
    + constructor; [reflexivity|assumption].
    + simpl in Hc. destruct (split comma s) as [|p ps].
      * repeat constructor. simpl. now rewrite Hc.
      * inversion IH; subst. constructor; [|assumption].
        simpl. rewrite Hc. assumption.
Qed.

Lemma parse_user_ids_blank (s : str) :
  forallb (fun c => N.eqb c comma || isspace c) s = true ->
  parse_user_ids s = [].
Proof.
  intros H. apply split_all_blank in H. unfold parse_user_ids.
  induction H as [|p ps Hp _ IH]; simpl; [reflexivity|].
  rewrite (strip_all_space p Hp). simpl. exact IH.
Qed.

End Resolver.

(** C3. The resolver returns exactly what the specification words:
    the entries between the commas, each trimmed, those empty after
    trimming discarded, in their original order and with repetitions
    kept.  Hence a comma-joined list of well-formed identifiers is
    returned as it is, repeated identifiers included, and the padded
    sample setting yields its three identifiers. *)
Theorem get_user_ids_resolves :
  (forall cfg w ids,
      fst (get_user_ids cfg w) = Ok ids <->
      spec_resolves (ZOHO_CLIQ_USER_IDS cfg) ids /\ ids <> [])
  /\ (forall cfg w ids,
        ids <> [] -> Forall wf_id ids ->
        ZOHO_CLIQ_USER_IDS cfg = join comma ids ->
        fst (get_user_ids cfg w) = Ok ids)
  /\ (forall w,
        fst (get_user_ids (load_config padded_environ) w) =
        Ok [py "60019117005"; py "60019117006"; py "60019117005"]).
Proof.
  split; [|split].
  - intros cfg w ids. rewrite get_user_ids_eq, spec_resolves_parse.
    destruct (parse_user_ids (ZOHO_CLIQ_USER_IDS cfg)) as [|u us]; simpl; split.
    + discriminate.
    + intros [-> H]. congruence.
    + intros [= <-]. split; [reflexivity|discriminate].
    + intros [-> _]. reflexivity.
  - intros cfg w ids Hne Hall E.
    rewrite get_user_ids_eq, E, (parse_user_ids_join ids Hne Hall).
    destruct ids; [congruence|reflexivity].
  - intros w. rewrite get_user_ids_eq. reflexivity.
Qed.

Lemma get_user_ids_resolves_witness :
  fst (get_user_ids (load_config repeated_environ) initial_world) = Ok repeated_ids.
Proof.
  apply (proj1 (proj2 get_user_ids_resolves)).
  - discriminate.
  - repeat constructor; try discriminate;
      try (intros H; simpl in H; repeat destruct H as [H|H]; try discriminate H; exact H).
  - reflexivity.
Defined.

(** C8. The resolver raises its configuration error ([ValueError]) when
    the setting is unset or empty, and when nothing is left after
    trimming and filtering, as for a string of commas and white space;
    a sequence it returns is never empty. *)
Theorem get_user_ids_never_empty :
  (forall environ w,
      environ_get environ (py "ZOHO_CLIQ_USER_IDS") = None ->
      get_user_ids (load_config environ) w = (Raise (ValueError NoUserIds), w))
  /\ (forall cfg w,
        ZOHO_CLIQ_USER_IDS cfg = [] ->
        get_user_ids cfg w = (Raise (ValueError NoUserIds), w))
  /\ (forall cfg w,
        ZOHO_CLIQ_USER_IDS cfg <> [] ->
        spec_resolves (ZOHO_CLIQ_USER_IDS cfg) [] ->
        get_user_ids cfg w = (Raise (ValueError UserIdsEmpty), w))
  /\ (forall cfg w,
        ZOHO_CLIQ_USER_IDS cfg <> [] ->
        forallb (fun c => N.eqb c comma || isspace c) (ZOHO_CLIQ_USER_IDS cfg) = true ->
        get_user_ids cfg w = (Raise (ValueError UserIdsEmpty), w))
  /\ (forall cfg w ids w',
        get_user_ids cfg w = (Ok ids, w') -> ids <> []).
Proof.
  repeat split.
  - intros environ w H. rewrite get_user_ids_eq.
    unfold load_config, environ_get_default. simpl. rewrite H. reflexivity.
  - intros cfg w H. rewrite get_user_ids_eq, H. reflexivity.
  - intros cfg w Hne H. apply spec_resolves_parse in H.
    rewrite get_user_ids_eq, <- H. apply truthy_true in Hne. now rewrite Hne.
  - intros cfg w Hne H. rewrite get_user_ids_eq, (parse_user_ids_blank _ H).
    apply truthy_true in Hne. now rewrite Hne.
  - intros cfg w ids w' H. rewrite get_user_ids_eq in H.
    destruct (parse_user_ids (ZOHO_CLIQ_USER_IDS cfg)); [discriminate|].
    injection H as <- _. discriminate.
Qed.

Lemma get_user_ids_never_empty_witness :
  get_user_ids (load_config blank_environ) initial_world
  = (Raise (ValueError UserIdsEmpty), initial_world).
Proof.
  apply (proj1 (proj2 (proj2 (proj2 get_user_ids_never_empty)))).
  - discriminate.
  - reflexivity.
Defined.

(* ================================================================== *)
(** ** Running computations *)
(* ================================================================== *)

Section Running.

Lemma add_events_nil (w : world) : add_events w [] = w.
Proof. destruct w. unfold add_events. simpl. now rewrite app_nil_r. Qed.

Lemma add_events_app (w : world) (a b : list event) :
  add_events (add_events w a) b = add_events w (a ++ b).
Proof. unfold add_events. simpl. now rewrite app_assoc. Qed.

Lemma emit_eq (ev : event) (w : world) : emit ev w = (Ok tt, add_events w [ev]).
Proof. reflexivity. Qed.

Lemma print_eq (m : msg) (w : world) :
  print m w = (Ok tt, add_events w [EvPrint m]).
Proof. reflexivity. Qed.

Lemma cliq_posts_app (a b : list event) :
  cliq_posts (a ++ b) = cliq_posts a + cliq_posts b.
Proof. unfold cliq_posts. now rewrite filter_app, length_app. Qed.

Lemma external_app (a b : list event) : external (a ++ b) = external a ++ external b.
Proof. apply filter_app. Qed.

(** *** The file system *)

Lemma fs_lookup_remove (p : str) (f : list (str * bytes)) :
  fs_lookup p (fs_remove p f) = None.
Proof.
  induction f as [|[q c] f IH]; simpl; [reflexivity|].
  destruct (Str.eqb q p) eqn:E; [exact IH|]. simpl. now rewrite E.
Qed.

Lemma fs_lookup_write (p : str) (c : bytes) (f : list (str * bytes)) :
  fs_lookup p (fs_write p c f) = Some c.
Proof. unfold fs_write. simpl. now rewrite eqb_refl. Qed.

(** *** One upload *)

(** [upload_file_to_zoho_cliq] in one equation. *)
Lemma upload_eq (e : env) (tok : value) (path uid bot : str)
    (comments : option (list str)) (w : world) :
  upload_file_to_zoho_cliq e tok path uid bot comments w =
  let w1 := add_events w [EvPrint (MsgRequestUrl ZOHO_CLIQ_FILES_URL)] in
  match fs_lookup path (fs w) with
  | None => (Raise FileNotFoundError, w1)
  | Some content =>
      let req := upload_request_for tok path content uid bot comments in
      let w2 := add_events w1 [EvCliqPost req] in
      match cliq_reply e (cliq_posts (trace w)) req with
      | None => (Raise RequestException, w2)
      | Some resp =>
          if (status_code resp =? 200)%Z
          then
            match json resp with
            | Some v => (Ok v, add_events w2 [EvPrint (MsgUploadOk uid)])
            | None => (Raise JSONDecodeError, add_events w2 [EvPrint (MsgUploadOk uid)])
            end
          else
            (Ok (error_result resp),
             add_events w2 [EvPrint (MsgUploadFailed uid (status_code resp));
                            EvPrint (MsgResponse (text resp))])
      end
  end.
Proof.
  unfold upload_file_to_zoho_cliq, bind, print, emit, open_rb, post_cliq, add_events.
  cbv zeta. cbn [fs trace].
  destruct (fs_lookup path (fs w)) as [content|]; [|reflexivity].
  cbn [fs trace]. rewrite cliq_posts_app. simpl (cliq_posts [_]). rewrite Nat.add_0_r.
  destruct (cliq_reply e _ _) as [resp|]; [|reflexivity].
  destruct (status_code resp =? 200)%Z.
  - unfold response_json, ret, raise. destruct (json resp); cbn [fs trace];
      repeat rewrite <- app_assoc; reflexivity.
  - unfold ret. cbn [fs trace]. repeat rewrite <- app_assoc. reflexivity.
Qed.

End Running.

(* ================================================================== *)
(** ** The token refresher *)
(* ================================================================== *)

Section TokenRefresher.

Lemma all_credentials (cfg : config) :
  all [opt_truthy (ZOHO_REFRESH_TOKEN cfg);
       opt_truthy (ZOHO_CLIENT_ID cfg);
       opt_truthy (ZOHO_CLIENT_SECRET cfg)] = credentials_set cfg.
Proof.
  unfold all, credentials_set. simpl.
  now rewrite andb_true_r, andb_assoc.
Qed.

(** [get_zoho_access_token] in one equation. *)
Lemma get_zoho_access_token_eq (cfg : config) (e : env) (w : world) :
  get_zoho_access_token cfg e w =
  if negb (credentials_set cfg) then (Raise (ValueError MissingCredentials), w)
  else
    let w1 := add_events w [EvTokenPost ZOHO_TOKEN_URL (token_payload_of cfg)] in
    match token_reply e (token_payload_of cfg) with
    | None => (Raise RequestException, w1)
    | Some r =>
        if ((400 <=? status_code r) && (status_code r <? 600))%Z
        then (Raise (HTTPError (status_code r)), w1)
        else
          match json r with
          | None => (Raise JSONDecodeError, w1)
          | Some (VDict d) =>
              let v := match dict_get (py "access_token") d with
                       | Some v => v
                       | None => VNone
                       end in
              if value_truthy v
              then (Ok v, add_events w1 [EvPrint MsgTokenOk])
              else (Raise (ValueError (NoAccessToken (VDict d))), w1)
          | Some _ => (Raise AttributeError, w1)
          end
    end.
Proof.
  unfold get_zoho_access_token. rewrite all_credentials.
  destruct (credentials_set cfg); [|reflexivity].
  cbv zeta. fold (token_payload_of cfg).
  cbv beta iota zeta delta [bind post_token emit raise_for_status response_json
    raise ret print add_events negb fs trace].
  destruct (token_reply e (token_payload_of cfg)) as [r|]; [|reflexivity].
  destruct ((400 <=? status_code r) && (status_code r <? 600))%Z; [reflexivity|].
  destruct (json r) as [[| | | | | |d]|]; try reflexivity.
  destruct (value_truthy _); [|reflexivity].
  now rewrite <- app_assoc.
Qed.

Lemma status_2xx_passes (z : Z) :
  (200 <= z < 300)%Z -> ((400 <=? z) && (z <? 600))%Z = false.
Proof. intros H. apply andb_false_iff. left. apply Z.leb_gt. lia. Qed.

End TokenRefresher.

(** C6. With the three credentials set, a token exchange that the
    endpoint answers with a string token returns that string, and
    whatever the refresher returns is a token that is not empty; with a
    credential missing or empty the refresher raises its configuration
    error with no HTTP call made (the world is untouched); on a 2xx
    response without an [access_token] field it raises instead of
    returning. *)
Theorem get_zoho_access_token_contract :
  (forall cfg e w resp d s,
      credentials_set cfg = true ->
      token_reply e (token_payload_of cfg) = Some resp ->
      (200 <= status_code resp < 300)%Z ->
      json resp = Some (VDict d) ->
      dict_get (py "access_token") d = Some (VStr s) ->
      s <> [] ->
      get_zoho_access_token cfg e w =
      (Ok (VStr s),
       add_events w [EvTokenPost ZOHO_TOKEN_URL (token_payload_of cfg);
                     EvPrint MsgTokenOk]))
  /\ (forall cfg e w v,
        fst (get_zoho_access_token cfg e w) = Ok v ->
        value_truthy v = true /\ v <> VStr [] /\
        exists resp d,
          token_reply e (token_payload_of cfg) = Some resp /\
          json resp = Some (VDict d) /\
          dict_get (py "access_token") d = Some v)
  /\ (forall cfg e w,
        credentials_set cfg = false ->
        get_zoho_access_token cfg e w = (Raise (ValueError MissingCredentials), w))
  /\ (forall cfg e w resp d,
        credentials_set cfg = true ->
        token_reply e (token_payload_of cfg) = Some resp ->
        (200 <= status_code resp < 300)%Z ->
        json resp = Some (VDict d) ->
        dict_get (py "access_token") d = None ->
        fst (get_zoho_access_token cfg e w) =
        Raise (ValueError (NoAccessToken (VDict d)))).
Proof.
  repeat split.
  - intros cfg e w resp d s Hc Hr Hs Hj Hd Hne.
    rewrite get_zoho_access_token_eq, Hc, Hr. cbn [negb].
    rewrite (status_2xx_passes _ Hs). cbv zeta. rewrite Hj, Hd.
    apply truthy_true in Hne. cbn [value_truthy]. rewrite Hne.
    now rewrite add_events_app.
  - revert H. rewrite get_zoho_access_token_eq.
    destruct (credentials_set cfg); [|discriminate]. cbn [negb]. cbv zeta.
    destruct (token_reply e (token_payload_of cfg)) as [r|]; [|discriminate].
    destruct ((400 <=? status_code r) && (status_code r <? 600))%Z; [discriminate|].
    destruct (json r) as [[| | | | | |d]|]; try discriminate.
    destruct (value_truthy _) eqn:Ht; [|discriminate].
    intros [= <-]. exact Ht.
  - revert H. rewrite get_zoho_access_token_eq.
    destruct (credentials_set cfg); [|discriminate]. cbn [negb]. cbv zeta.
    destruct (token_reply e (token_payload_of cfg)) as [r|]; [|discriminate].
    destruct ((400 <=? status_code r) && (status_code r <? 600))%Z; [discriminate|].
    destruct (json r) as [[| | | | | |d]|]; try discriminate.
    destruct (value_truthy _) eqn:Ht; [|discriminate].
    intros [= <-] E. rewrite E in Ht. discriminate.
  - revert H. rewrite get_zoho_access_token_eq.
    destruct (credentials_set cfg); [|discriminate]. cbn [negb]. cbv zeta.
    destruct (token_reply e (token_payload_of cfg)) as [r|]; [|discriminate].
    destruct ((400 <=? status_code r) && (status_code r <? 600))%Z; [discriminate|].
    destruct (json r) as [[| | | | | |d]|] eqn:Hj; try discriminate.
    destruct (dict_get (py "access_token") d) as [v'|] eqn:Hd.
    + destruct (value_truthy v'); [|discriminate].
      intros [= <-]. exists r, d. repeat split; assumption.
    + discriminate.
  - intros cfg e w Hc. rewrite get_zoho_access_token_eq, Hc. reflexivity.
  - intros cfg e w resp d Hc Hr Hs Hj Hd.
    rewrite get_zoho_access_token_eq, Hc, Hr. cbn [negb].
    rewrite (status_2xx_passes _ Hs). cbv zeta. rewrite Hj, Hd. reflexivity.
Qed.

Lemma get_zoho_access_token_contract_witness :
  get_zoho_access_token sample_config (sample_env all_delivered) initial_world =
  (Ok (VStr (py "1000.access")),
   add_events initial_world
     [EvTokenPost ZOHO_TOKEN_URL (token_payload_of sample_config);
      EvPrint MsgTokenOk]).
Proof.
  apply (proj1 get_zoho_access_token_contract
           sample_config (sample_env all_delivered) initial_world token_response
           [(py "access_token", VStr (py "1000.access"))]).
  - reflexivity.
  - reflexivity.
  - simpl. lia.
  - reflexivity.
  - reflexivity.
  - discriminate.
Defined.

(* ================================================================== *)
(** ** The file distributor *)
(* ================================================================== *)



Section Distributor.

Variable cfg : config.
Variable e : env.
Variable tok : value.
Variable path : str.

Lemma upload_loop_cons_ok (uid : str) (rest : list str) (acc : list entry)
    (w w' : world) (r : value) :
  upload_file_to_zoho_cliq e tok path uid (ZOHO_BOT_NAME cfg)
    (Some [py "Metal Price Update"]) w = (Ok r, w') ->
  upload_loop cfg e tok path (uid :: rest) acc w =
  upload_loop cfg e tok path rest (acc ++ [{| user_id := uid; result := r |}]) w'.
Proof. intros H. simpl. unfold bind at 1. now rewrite H. Qed.

Lemma upload_loop_cons_raise (uid : str) (rest : list str) (acc : list entry)
    (w w' : world) (x : exn) :
  upload_file_to_zoho_cliq e tok path uid (ZOHO_BOT_NAME cfg)
    (Some [py "Metal Price Update"]) w = (Raise x, w') ->
  upload_loop cfg e tok path (uid :: rest) acc w = (Raise x, w').
Proof. intros H. simpl. unfold bind at 1. now rewrite H. Qed.

End Distributor.

(** C9. For a response with status 200 the upload returns the parsed
    JSON body, and returns at all only when the body is JSON: with any
    other body the decoding error leaves the upload function, and in the
    loop of [main] no result is recorded and no later recipient is
    attempted. *)
Theorem upload_200_returns_parsed_body :
  (forall e tok path uid bot comments w content resp,
      fs_lookup path (fs w) = Some content ->
      cliq_reply e (cliq_posts (trace w))
        (upload_request_for tok path content uid bot comments) = Some resp ->
      status_code resp = 200%Z ->
      (forall v, fst (upload_file_to_zoho_cliq e tok path uid bot comments w) = Ok v
                 <-> json resp = Some v) /\
      (json resp = None ->
       fst (upload_file_to_zoho_cliq e tok path uid bot comments w)
       = Raise JSONDecodeError))
  /\ (forall cfg e tok path uid rest acc w content resp,
        fs_lookup path (fs w) = Some content ->
        cliq_reply e (cliq_posts (trace w))
          (request_of cfg tok path content uid) = Some resp ->
        status_code resp = 200%Z ->
        json resp = None ->
        fst (upload_loop cfg e tok path (uid :: rest) acc w) = Raise JSONDecodeError /\
        cliq_posts (trace (snd (upload_loop cfg e tok path (uid :: rest) acc w)))
        = S (cliq_posts (trace w))).
Proof.
  split.
  - intros e tok path uid bot comments w content resp Hf Hr Hs.
    rewrite upload_eq. cbv zeta. rewrite Hf, Hr, Hs. simpl (_ =? _)%Z.
    destruct (json resp) as [v'|]; cbn [fst]; split.
    + intros v. split; congruence.
    + discriminate.
    + intros v. split; discriminate.
    + reflexivity.
  - intros cfg e tok path uid rest acc w content resp Hf Hr Hs Hj.
    erewrite upload_loop_cons_raise.
    2:{ rewrite upload_eq. cbv zeta. rewrite Hf.
        fold (request_of cfg tok path content uid). rewrite Hr, Hs, Hj.
        simpl (_ =? _)%Z. cbv iota. reflexivity. }
    split; [reflexivity|]. cbn [snd add_events trace].
    rewrite !cliq_posts_app. unfold cliq_posts at 2 3 4. simpl. lia.
Qed.

Lemma upload_200_returns_parsed_body_witness :
  fst (upload_loop sample_config (sample_env (fun _ _ => Some html_response))
         (VStr (py "1000.access")) (py "/tmp/tmpab12cd34.xlsx")
         [py "101"; py "102"] []
         {| fs := [(py "/tmp/tmpab12cd34.xlsx", sample_object)]; trace := [] |})
  = Raise JSONDecodeError.
Proof.
  refine (proj1 (proj2 upload_200_returns_parsed_body
    sample_config (sample_env (fun _ _ => Some html_response))
    (VStr (py "1000.access")) (py "/tmp/tmpab12cd34.xlsx") (py "101") [py "102"] []
    {| fs := [(py "/tmp/tmpab12cd34.xlsx", sample_object)]; trace := [] |}
    sample_object html_response _ _ _ _)); reflexivity.
Defined.

(* ================================================================== *)
(** ** The summary *)
(* ================================================================== *)

Section Summary.

Lemma count_successful_dicts (results : list entry) :
  Forall (fun r => is_dict (result r)) results ->
  count_successful results = Ok (List.length (filter lacks_error_key results)).
Proof.
  induction 1 as [|r rest [d Hd] _ IH]; [reflexivity|].
  simpl. unfold lacks_error_key at 1. rewrite Hd, IH. simpl.
  destruct (dict_mem (py "error") d); reflexivity.
Qed.

Lemma count_successful_skip (pre post : list entry) (r : entry) :
  contains_error (result r) = Ok true ->
  count_successful (pre ++ r :: post) = count_successful (pre ++ post).
Proof.
  intros H. induction pre as [|p pre IH]; simpl.
  - rewrite H. destruct (count_successful post); reflexivity.
  - now rewrite IH.
Qed.

Lemma summary_eq (results : list entry) (w : world) :
  summary results w =
  let w1 := add_events w [EvPrint MsgRule; EvPrint MsgSummary; EvPrint MsgRule] in
  match count_successful results with
  | Ok n =>
      (Ok tt, add_events w1 [EvPrint (MsgSuccessful n (List.length results));
                             EvPrint MsgDone])
  | Raise x => (Raise x, w1)
  end.
Proof.
  unfold summary.
  cbv beta iota zeta delta [bind print emit lift add_events fs trace].
  destruct (count_successful results); rewrite <- ?app_assoc; reflexivity.
Qed.

End Summary.

(** C10. The summary counts an upload as successful exactly when its
    result dict has no key ["error"]: the count it prints is the number
    of such items.  The result of every response that is not 200 has the
    key and adds nothing to the count, and so does a 200 response whose
    JSON body has an ["error"] key of its own. *)
Theorem summary_counts_results_without_error :
  (forall results w,
      Forall (fun r => is_dict (result r)) results ->
      count_successful results = Ok (List.length (filter lacks_error_key results)) /\
      summary results w =
      (Ok tt,
       add_events w
         [EvPrint MsgRule; EvPrint MsgSummary; EvPrint MsgRule;
          EvPrint (MsgSuccessful (List.length (filter lacks_error_key results))
                     (List.length results));
          EvPrint MsgDone]))
  /\ (forall resp pre post uid,
        is_dict (error_result resp) /\
        lacks_error_key {| user_id := uid; result := error_result resp |} = false /\
        count_successful (pre ++ {| user_id := uid; result := error_result resp |} :: post)
        = count_successful (pre ++ post))
  /\ (forall e tok path uid bot comments w content resp d pre post,
        fs_lookup path (fs w) = Some content ->
        cliq_reply e (cliq_posts (trace w))
          (upload_request_for tok path content uid bot comments) = Some resp ->
        status_code resp = 200%Z ->
        json resp = Some (VDict d) ->
        dict_mem (py "error") d = true ->
        fst (upload_file_to_zoho_cliq e tok path uid bot comments w) = Ok (VDict d) /\
        lacks_error_key {| user_id := uid; result := VDict d |} = false /\
        count_successful (pre ++ {| user_id := uid; result := VDict d |} :: post)
        = count_successful (pre ++ post)).
Proof.
  split; [|split].
  - intros results w H. split; [now apply count_successful_dicts|].
    rewrite summary_eq. cbv zeta. rewrite (count_successful_dicts results H).
    now rewrite add_events_app.
  - intros resp pre post uid. split; [|split].
    + eexists. reflexivity.
    + reflexivity.
    + now apply count_successful_skip.
  - intros e tok path uid bot comments w content resp d pre post Hf Hr Hs Hj Hd.
    split; [|split].
    + rewrite upload_eq. cbv zeta. rewrite Hf, Hr, Hs, Hj. reflexivity.
    + unfold lacks_error_key. simpl. now rewrite Hd.
    + apply count_successful_skip. simpl. now rewrite Hd.
Qed.

Lemma summary_counts_results_without_error_witness :
  count_successful
    [{| user_id := py "101"; result := VDict [(py "status", VStr (py "sent"))] |};
     {| user_id := py "102"; result := error_result server_error |};
     {| user_id := py "103"; result := VDict [(py "error", VStr (py "user not found"))] |}]
  = Ok 1.
Proof.
  refine (proj1 (proj1 summary_counts_results_without_error _ initial_world _)).
  repeat constructor; eexists; reflexivity.
Defined.

(* ================================================================== *)
(** ** The orchestrator *)
(* ================================================================== *)

Section Orchestrator.

(** [cleanup] never raises. *)
Lemma cleanup_eq (e : env) (path : str) (w : world) :
  cleanup e path w =
  (Ok tt,
   if unlink_fails e
   then add_events w [EvUnlink path; EvPrint (MsgWarnDelete OSError)]
   else match fs_lookup path (fs w) with
        | None => add_events w [EvUnlink path; EvPrint (MsgWarnDelete FileNotFoundError)]
        | Some _ => {| fs := fs_remove path (fs w);
                       trace := trace w ++ [EvUnlink path; EvPrint MsgCleaned] |}
        end).
Proof.
  cbv beta iota zeta delta [cleanup try_except os_unlink bind emit print].
  cbn [fs trace].
  destruct (unlink_fails e).
  - unfold add_events. cbn [fs trace]. now rewrite <- app_assoc.
  - destruct (fs_lookup path (fs w)); unfold add_events; cbn [fs trace];
      now rewrite <- app_assoc.
Qed.

Lemma main_start (cfg : config) (e : env) (w : world) :
  main cfg e w =
  match get_zoho_access_token cfg e (add_events w banner) with
  | (Raise x, w2) => (Raise x, w2)
  | (Ok tok, w2) =>
      (print MsgStep2 ;;;
       match AWS_S3_BUCKET cfg, AWS_S3_FILE_KEY cfg with
       | Some bucket, Some key =>
           if negb (truthy bucket) || negb (truthy key)
           then raise (ValueError BucketOrKeyUnset)
           else
             local_file_path <- named_temporary_file e (snd (PosixPath.splitext key)) ;;
             download_file_from_s3 cfg e bucket key local_file_path ;;;
             print MsgStep3 ;;;
             user_ids <- get_user_ids cfg ;;
             print (MsgFound (List.length user_ids)) ;;;
             print (MsgStep4 (List.length user_ids)) ;;;
             results <- upload_loop cfg e tok local_file_path user_ids [] ;;
             cleanup e local_file_path ;;;
             summary results ;;;
             ret results
       | _, _ => raise (ValueError BucketOrKeyUnset)
       end) w2
  end.
Proof.
  unfold main, banner.
  do 4 (unfold bind at 1; rewrite print_eq, ?add_events_app; cbn [app]).
  unfold bind at 1.
  destruct (get_zoho_access_token cfg e _) as [[tok|x] w2]; reflexivity.
Qed.

(** [main] once the token is there, with bucket and key set. *)
Lemma main_eq (cfg : config) (e : env) (w : world) (b k : str) :
  AWS_S3_BUCKET cfg = Some b -> AWS_S3_FILE_KEY cfg = Some k ->
  truthy b = true -> truthy k = true ->
  main cfg e w =
  match get_zoho_access_token cfg e (add_events w banner) with
  | (Raise x, w2) => (Raise x, w2)
  | (Ok tok, w2) =>
      match s3_reply e b k with
      | S3ClientError => (Raise DownloadFailed, world_at_download cfg e b k w2)
      | S3OtherError => (Raise BotoError, world_at_download cfg e b k w2)
      | S3Object content =>
          match parse_user_ids (ZOHO_CLIQ_USER_IDS cfg) with
          | [] =>
              (Raise (ValueError (if truthy (ZOHO_CLIQ_USER_IDS cfg)
                                  then UserIdsEmpty else NoUserIds)),
               world_at_resolve cfg e b k content w2)
          | ids =>
              match upload_loop cfg e tok (scratch_path e k) ids []
                      (world_at_upload cfg e b k content ids w2) with
              | (Raise x, w6) => (Raise x, w6)
              | (Ok results, w6) => finish e (scratch_path e k) results w6
              end
          end
      end
  end.
Proof.
  intros Hb Hk Tb Tk. rewrite main_start.
  destruct (get_zoho_access_token cfg e _) as [[tok|x] w2]; [|reflexivity].
  rewrite Hb, Hk, Tb, Tk. cbn [negb orb].
  unfold bind at 1. rewrite print_eq.
  unfold bind at 1.
  unfold named_temporary_file at 1. fold (scratch_path e k).
  unfold bind at 1. rewrite emit_eq.
  unfold bind at 1. unfold write_file at 1. unfold ret at 1.
  unfold bind at 1. unfold download_file_from_s3 at 1.
  unfold bind at 1. rewrite emit_eq.
  unfold world_at_upload, world_at_resolve, world_at_download. cbv zeta.
  destruct (s3_reply e b k) as [content| |].
  - unfold bind at 1. unfold bind at 1. unfold write_file at 1.
    unfold bind at 1. rewrite print_eq. unfold ret at 1.
    unfold bind at 1. rewrite print_eq.
    unfold bind at 1. rewrite get_user_ids_eq.
    destruct (parse_user_ids (ZOHO_CLIQ_USER_IDS cfg)) as [|u us].
    + unfold add_events. cbn [fs trace]. rewrite <- !app_assoc. reflexivity.
    + unfold bind at 1. rewrite print_eq.
      unfold bind at 1. rewrite print_eq.
      unfold bind at 1. unfold finish.
      unfold add_events. cbn [fs trace]. rewrite <- !app_assoc. cbn [app].
      reflexivity.
  - unfold raise, add_events. cbn [fs trace]. rewrite <- !app_assoc. reflexivity.
  - unfold raise, add_events. cbn [fs trace]. rewrite <- !app_assoc. reflexivity.
Qed.

End Orchestrator.

Section Loop.

Variable cfg : config.
Variable e : env.
Variable tok : value.
Variable path : str.
Variable content : bytes.

Let request (uid : str) : upload_request := request_of cfg tok path content uid.
Let sent (uid : str) : list event :=
  [EvPrint (MsgRequestUrl ZOHO_CLIQ_FILES_URL); EvCliqPost (request uid)].

(** One turn of the loop of [main]. *)
Lemma upload_loop_step (uid : str) (rest : list str) (acc : list entry) (w : world) :
  fs_lookup path (fs w) = Some content ->
  upload_loop cfg e tok path (uid :: rest) acc w =
  match cliq_reply e (cliq_posts (trace w)) (request uid) with
  | None => (Raise RequestException, add_events w (sent uid))
  | Some resp =>
      if (status_code resp =? 200)%Z
      then
        match json resp with
        | Some v =>
            upload_loop cfg e tok path rest
              (acc ++ [{| user_id := uid; result := v |}])
              (add_events w (sent uid ++ [EvPrint (MsgUploadOk uid)]))
        | None =>
            (Raise JSONDecodeError,
             add_events w (sent uid ++ [EvPrint (MsgUploadOk uid)]))
        end
      else
        upload_loop cfg e tok path rest
          (acc ++ [{| user_id := uid; result := error_result resp |}])
          (add_events w (sent uid ++
             [EvPrint (MsgUploadFailed uid (status_code resp));
              EvPrint (MsgResponse (text resp))]))
  end.
Proof.
  intros Hf.
  pose proof (upload_eq e tok path uid (ZOHO_BOT_NAME cfg)
                (Some [py "Metal Price Update"]) w) as E.
  cbv zeta in E. rewrite Hf in E.
  fold (request_of cfg tok path content uid) in E. fold (request uid) in E.
  rewrite !add_events_app in E. cbn [app] in E.
  destruct (cliq_reply e (cliq_posts (trace w)) (request uid)) as [resp|].
  - destruct (status_code resp =? 200)%Z.
    + destruct (json resp) as [v|].
      * rewrite ?add_events_app in E. apply upload_loop_cons_ok. exact E.
      * rewrite ?add_events_app in E. apply upload_loop_cons_raise. exact E.
    + rewrite ?add_events_app in E. apply upload_loop_cons_ok. exact E.
  - apply upload_loop_cons_raise. exact E.
Qed.

(** In every run of the loop the files stay as they are, the requests
    sent are those of a prefix of the recipients, in order, each with
    the content of the scratch file, and nothing else leaves the
    process; a loop that returns has gone through all recipients. *)
Lemma upload_loop_trace (ids : list str) :
  forall (acc : list entry) (w : world),
    fs_lookup path (fs w) = Some content ->
    exists evs n,
      snd (upload_loop cfg e tok path ids acc w) = add_events w evs /\
      external evs = List.map (fun uid => EvCliqPost (request uid)) (firstn n ids) /\
      (forall results,
          fst (upload_loop cfg e tok path ids acc w) = Ok results ->
          n = List.length ids /\
          List.map user_id results = List.map user_id acc ++ ids).
Proof.
  induction ids as [|uid rest IH]; intros acc w Hf.
  - exists [], 0. simpl. rewrite add_events_nil. repeat split.
    injection H as <-. now rewrite app_nil_r.
  - rewrite (upload_loop_step uid rest acc w Hf).
    destruct (cliq_reply e (cliq_posts (trace w)) (request uid)) as [resp|].
    + destruct (status_code resp =? 200)%Z.
      * destruct (json resp) as [v|].
        -- destruct (IH (acc ++ [{| user_id := uid; result := v |}])
                       (add_events w (sent uid ++ [EvPrint (MsgUploadOk uid)])) Hf)
             as (evs & n & E1 & E2 & E3).
           exists ((sent uid ++ [EvPrint (MsgUploadOk uid)]) ++ evs), (S n).
           rewrite E1, add_events_app. split; [reflexivity|]. split.
           ++ rewrite external_app, E2. reflexivity.
           ++ intros results Hr. destruct (E3 results Hr) as [-> Hm].
              split; [reflexivity|].
              rewrite Hm, map_app, <- app_assoc. reflexivity.
        -- exists (sent uid ++ [EvPrint (MsgUploadOk uid)]), 1.
           repeat split; try discriminate.
      * destruct (IH (acc ++ [{| user_id := uid; result := error_result resp |}])
                    (add_events w (sent uid ++
                       [EvPrint (MsgUploadFailed uid (status_code resp));
                        EvPrint (MsgResponse (text resp))])) Hf)
          as (evs & n & E1 & E2 & E3).
        eexists (_ ++ evs), (S n).
        rewrite E1, add_events_app. split; [reflexivity|]. split.
        -- rewrite external_app, E2. reflexivity.
        -- intros results Hr. destruct (E3 results Hr) as [-> Hm].
           split; [reflexivity|].
           rewrite Hm, map_app, <- app_assoc. reflexivity.
    + exists (sent uid), 1. repeat split; try discriminate.
Qed.

(** When every request is answered the loop returns, with one item for
    each recipient. *)
Lemma upload_loop_answered (ids : list str) :
  answered e ->
  forall (acc : list entry) (w : world),
    fs_lookup path (fs w) = Some content ->
    exists results,
      fst (upload_loop cfg e tok path ids acc w) = Ok (acc ++ results) /\
      List.map user_id results = ids /\
      Forall (fun r => exists resp, recorded resp (result r)) results.
Proof.
  intros Ha. induction ids as [|uid rest IH]; intros acc w Hf.
  - exists []. simpl. rewrite app_nil_r. repeat split. constructor.
  - rewrite (upload_loop_step uid rest acc w Hf).
    destruct (Ha (cliq_posts (trace w)) (request uid)) as (resp & -> & Hj).
    destruct (status_code resp =? 200)%Z eqn:Es.
    + apply Z.eqb_eq in Es. destruct (json resp) as [v|] eqn:Ej; [|now elim (Hj Es)].
      destruct (IH (acc ++ [{| user_id := uid; result := v |}])
                  (add_events w (sent uid ++ [EvPrint (MsgUploadOk uid)])) Hf)
        as (results & E1 & E2 & E3).
      exists ({| user_id := uid; result := v |} :: results).
      rewrite E1, <- app_assoc. split; [reflexivity|]. split.
      * simpl. now rewrite E2.
      * constructor; [|assumption]. exists resp. left. now split.
    + apply Z.eqb_neq in Es.
      destruct (IH (acc ++ [{| user_id := uid; result := error_result resp |}])
                  (add_events w (sent uid ++
                     [EvPrint (MsgUploadFailed uid (status_code resp));
                      EvPrint (MsgResponse (text resp))])) Hf)
        as (results & E1 & E2 & E3).
      exists ({| user_id := uid; result := error_result resp |} :: results).
      rewrite E1, <- app_assoc. split; [reflexivity|]. split.
      * simpl. now rewrite E2.
      * constructor; [|assumption]. exists resp. right. now split.
Qed.

End Loop.

Section Stages.

Variable cfg : config.
Variable e : env.

(** The token refresher touches no file and sends at most its one
    request; it returns only after printing its success line. *)
Lemma token_world (w : world) :
  exists evs,
    snd (get_zoho_access_token cfg e w) = add_events w evs /\
    (evs = [] \/
     evs = [EvTokenPost ZOHO_TOKEN_URL (token_payload_of cfg)] \/
     evs = [EvTokenPost ZOHO_TOKEN_URL (token_payload_of cfg); EvPrint MsgTokenOk]).
Proof.
  rewrite get_zoho_access_token_eq.
  destruct (credentials_set cfg); cbn [negb].
  2:{ exists []. rewrite add_events_nil. auto. }
  cbv zeta.
  destruct (token_reply e (token_payload_of cfg)) as [r|];
    [|eexists; split; [reflexivity|auto]].
  destruct ((400 <=? status_code r) && (status_code r <? 600))%Z;
    [eexists; split; [reflexivity|auto]|].
  destruct (json r) as [[| | | | | |d]|];
    try (eexists; split; [reflexivity|auto]; fail).
  match goal with |- context [value_truthy ?v] => destruct (value_truthy v) end;
    [|eexists; split; [reflexivity|auto]].
  eexists. rewrite add_events_app. cbn [snd app]. split; [reflexivity|auto].
Qed.


Lemma fs_remove_absent (p : str) (f : list (str * bytes)) :
  fs_lookup p f = None -> fs_remove p f = f.
Proof.
  induction f as [|[q c] f IH]; simpl; [reflexivity|].
  destruct (Str.eqb q p); [discriminate|]. intros H. now rewrite IH.
Qed.

(** The end of a run: the scratch file is unlinked once, a failure of
    the deletion becomes a warning, and the results are returned unless
    the count itself fails. *)
Lemma finish_spec (path : str) (results : list entry) (w : world) :
  exists evs,
    finish e path results w =
    (match count_successful results with
     | Ok _ => Ok results
     | Raise x => Raise x
     end,
     {| fs := if unlink_fails e then fs w else fs_remove path (fs w);
        trace := trace w ++ evs |}) /\
    external evs = [EvUnlink path] /\
    (unlink_fails e = true -> In (EvPrint (MsgWarnDelete OSError)) evs).
Proof.
  unfold finish. unfold bind at 1. rewrite cleanup_eq.
  unfold bind at 1. rewrite summary_eq. cbv zeta.
  destruct (unlink_fails e).
  - destruct (count_successful results); eexists; (split; [|split]);
      try (unfold add_events, ret; cbn [fs trace]; rewrite <- !app_assoc; reflexivity);
      try reflexivity; intros _; simpl; tauto.
  - destruct (fs_lookup path (fs w)) eqn:Hf;
      destruct (count_successful results); eexists; (split; [|split]);
      try (unfold add_events, ret; cbn [fs trace]; rewrite <- !app_assoc;
           rewrite ?(fs_remove_absent _ _ Hf); reflexivity);
      try reflexivity; discriminate.
Qed.

End Stages.


(* ================================================================== *)
(** ** Failure isolation *)
(* ================================================================== *)

(** C1, as the code has it.  An upload answered with a status other than
    200 is recorded as a failure item that carries the status code and
    the body; nothing is raised and the loop goes on with the next
    recipient.  When every request is answered by a response (a 200 one
    with a JSON body), the loop attempts every recipient in order and
    returns one item for each.  With three recipients and HTTP 500 for
    the second, the third is attempted, the report has a success, a
    failure and a success, and the summary prints 2 of 3. *)
Theorem upload_failure_is_recorded :
  (forall cfg e tok path content uid rest acc w resp,
      fs_lookup path (fs w) = Some content ->
      cliq_reply e (cliq_posts (trace w)) (request_of cfg tok path content uid)
      = Some resp ->
      status_code resp <> 200%Z ->
      upload_loop cfg e tok path (uid :: rest) acc w =
      upload_loop cfg e tok path rest
        (acc ++ [{| user_id := uid; result := error_result resp |}])
        (add_events w
           [EvPrint (MsgRequestUrl ZOHO_CLIQ_FILES_URL);
            EvCliqPost (request_of cfg tok path content uid);
            EvPrint (MsgUploadFailed uid (status_code resp));
            EvPrint (MsgResponse (text resp))]) /\
      exists d,
        error_result resp = VDict d /\
        dict_get (py "status_code") d = Some (VInt (status_code resp)) /\
        dict_get (py "error") d = Some (VStr (text resp)))
  /\ (forall cfg e tok path content ids w,
        answered e ->
        fs_lookup path (fs w) = Some content ->
        exists results evs,
          upload_loop cfg e tok path ids [] w = (Ok results, add_events w evs) /\
          List.map user_id results = ids /\
          external evs =
          List.map (fun uid => EvCliqPost (request_of cfg tok path content uid)) ids /\
          Forall (fun r => exists resp, recorded resp (result r)) results)
  /\ (let run := main sample_config (sample_env second_fails) initial_world in
      fst run =
      Ok [{| user_id := py "101"; result := VDict [(py "status", VStr (py "sent"))] |};
          {| user_id := py "102"; result := error_result server_error |};
          {| user_id := py "103"; result := VDict [(py "status", VStr (py "sent"))] |}]
      /\ cliq_posts (trace (snd run)) = 3
      /\ nth_error (rev (trace (snd run))) 1 = Some (EvPrint (MsgSuccessful 2 3))).
Proof.
  split; [|split].
  - intros cfg e tok path content uid rest acc w resp Hf Hr Hs. split.
    + rewrite (upload_loop_step cfg e tok path content uid rest acc w Hf), Hr.
      apply Z.eqb_neq in Hs. rewrite Hs. reflexivity.
    + eexists. split; [reflexivity|]. split; reflexivity.
  - intros cfg e tok path content ids w Ha Hf.
    destruct (upload_loop_answered cfg e tok path content ids Ha [] w Hf)
      as (results & E1 & E2 & E3).
    destruct (upload_loop_trace cfg e tok path content ids [] w Hf)
      as (evs & n & T1 & T2 & T3).
    exists results, evs. simpl in E1.
    destruct (T3 results E1) as [-> _]. rewrite firstn_all in T2.
    repeat split; try assumption.
    destruct (upload_loop cfg e tok path ids [] w) as [o w']. simpl in *.
    now subst.
  - vm_compute. repeat split.
Qed.

Lemma upload_failure_is_recorded_witness :
  exists results evs,
    upload_loop sample_config (sample_env second_fails) (VStr (py "1000.access"))
      (py "/tmp/tmpab12cd34.xlsx") [py "101"; py "102"; py "103"] []
      {| fs := [(py "/tmp/tmpab12cd34.xlsx", sample_object)]; trace := [] |}
    = (Ok results,
       add_events
         {| fs := [(py "/tmp/tmpab12cd34.xlsx", sample_object)]; trace := [] |} evs) /\
    List.map user_id results = [py "101"; py "102"; py "103"] /\
    external evs =
    List.map (fun uid => EvCliqPost
                (request_of sample_config (VStr (py "1000.access"))
                   (py "/tmp/tmpab12cd34.xlsx") sample_object uid))
      [py "101"; py "102"; py "103"] /\
    Forall (fun r => exists resp, recorded resp (result r)) results.
Proof.
  apply (proj1 (proj2 upload_failure_is_recorded)).
  - intros n r. unfold sample_env, second_fails. cbn [cliq_reply].
    destruct (Nat.eqb n 1); eexists; (split; [reflexivity|]);
      intros H; simpl in *; discriminate.
  - reflexivity.
Defined.

(** C1 as stated fails for a network error: with three recipients and no
    response to the second request, the exception leaves [main], no
    failure item is recorded and the third recipient is never tried. *)
Lemma network_error_aborts_the_loop :
  let run := main sample_config (sample_env second_unreachable) initial_world in
  fst run = Raise RequestException /\
  cliq_posts (trace (snd run)) = 2 /\
  ~ (exists results, fst run = Ok results).
Proof.
  vm_compute. repeat split. intros [results H]. discriminate.
Qed.

(* ================================================================== *)
(** ** Configuration errors and the order of the stages *)
(* ================================================================== *)

Section ConfigurationOrder.

Variable cfg : config.
Variable e : env.
Variable w : world.

Lemma main_missing_credentials :
  credentials_set cfg = false ->
  main cfg e w = (Raise (ValueError MissingCredentials), add_events w banner).
Proof.
  intros H. rewrite main_start, get_zoho_access_token_eq, H. reflexivity.
Qed.

(** With the bucket or the key unset, [main] stops right after the
    token stage. *)
Lemma main_missing_bucket :
  opt_truthy (AWS_S3_BUCKET cfg) && opt_truthy (AWS_S3_FILE_KEY cfg) = false ->
  main cfg e w =
  match get_zoho_access_token cfg e (add_events w banner) with
  | (Raise x, w2) => (Raise x, w2)
  | (Ok _, w2) =>
      (Raise (ValueError BucketOrKeyUnset), add_events w2 [EvPrint MsgStep2])
  end.
Proof.
  intros H. rewrite main_start.
  destruct (get_zoho_access_token cfg e _) as [[tok|x] w2]; [|reflexivity].
  unfold bind at 1. rewrite print_eq.
  destruct (AWS_S3_BUCKET cfg) as [b|]; [|reflexivity].
  destruct (AWS_S3_FILE_KEY cfg) as [k|]; [|reflexivity].
  simpl in H. destruct (truthy b); [|reflexivity].
  simpl in H. rewrite H. reflexivity.
Qed.


End ConfigurationOrder.




(* ================================================================== *)
(** ** The scratch file *)
(* ================================================================== *)

Section ScratchFile.

Variable cfg : config.
Variable e : env.
Variable w : world.


Variables b k : str.
Variable tok : value.
Variable w2 : world.
Variable content : bytes.

Hypothesis Hb : AWS_S3_BUCKET cfg = Some b.
Hypothesis Hk : AWS_S3_FILE_KEY cfg = Some k.
Hypothesis Tb : truthy b = true.
Hypothesis Tk : truthy k = true.
Hypothesis Htok : get_zoho_access_token cfg e (add_events w banner) = (Ok tok, w2).
Hypothesis Hs3 : s3_reply e b k = S3Object content.
Hypothesis Hids : parse_user_ids (ZOHO_CLIQ_USER_IDS cfg) <> [].

Let ids := parse_user_ids (ZOHO_CLIQ_USER_IDS cfg).
Let path := scratch_path e k.
Let w5 := world_at_upload cfg e b k content ids w2.


Lemma scratch_file_written : fs_lookup path (fs w5) = Some content.
Proof. apply fs_lookup_write. Qed.

Lemma trace_at_upload :
  exists evs,
    trace w5 = trace w2 ++ evs /\
    external evs = [EvTempCreate path; EvS3Download (AWS_REGION cfg) b k path].
Proof.
  eexists. split.
  - subst w5. unfold world_at_upload, world_at_resolve, world_at_download, add_events.
    cbn [fs trace]. rewrite <- !app_assoc. reflexivity.
  - reflexivity.
Qed.

End ScratchFile.




(* ================================================================== *)
(** ** The name of the uploaded file *)
(* ================================================================== *)

Section Names.

Lemma rfind_from_absent (c : N) (s : str) :
  ~ In c s -> forall i last, rfind_from c s i last = last.
Proof.
  induction s as [|d s IH]; intros Hn i last; [reflexivity|].
  simpl. destruct (N.eqb d c) eqn:E.
  - apply N.eqb_eq in E. exfalso. apply Hn. now left.
  - apply IH. intros H. apply Hn. now right.
Qed.

Lemma rfind_from_last (c : N) (a f : str) :
  ~ In c f ->
  forall i last, rfind_from c (a ++ c :: f) i last = (i + Z.of_nat (List.length a))%Z.
Proof.
  intros Hf. induction a as [|d a IH]; intros i last.
  - simpl. rewrite N.eqb_refl, rfind_from_absent by assumption. lia.
  - simpl app. cbn [rfind_from]. rewrite IH. cbn [List.length]. lia.
Qed.

(** A string without [c], or its cut at the last [c]. *)
Lemma last_occurrence (c : N) (s : str) :
  ~ In c s \/ exists a f, s = a ++ c :: f /\ ~ In c f.
Proof.
  induction s as [|d s [IH|(a & f & -> & Hf)]].
  - left. intros [].
  - destruct (N.eq_dec d c) as [->|Hd].
    + right. exists [], s. now split.
    + left. intros [H|H]; [congruence|contradiction].
  - right. exists (d :: a), f. now split.
Qed.

Lemma basename_cut (a f : str) :
  ~ In slash f -> PosixPath.basename (a ++ slash :: f) = f.
Proof.
  intros Hf. unfold PosixPath.basename, slice_from, rfind.
  rewrite rfind_from_last by assumption.
  replace (Z.to_nat (0 + Z.of_nat (List.length a) + 1)) with (List.length a + 1) by lia.
  rewrite skipn_app, skipn_all2 by lia.
  replace (List.length a + 1 - List.length a) with 1 by lia. reflexivity.
Qed.

Lemma basename_plain (f : str) : ~ In slash f -> PosixPath.basename f = f.
Proof.
  intros Hf. unfold PosixPath.basename, slice_from, rfind.
  rewrite rfind_from_absent by assumption. reflexivity.
Qed.

Lemma in_skipn {A} (x : A) (n : nat) (l : list A) : In x (skipn n l) -> In x l.
Proof.
  intros H. rewrite <- (firstn_skipn n l). apply in_or_app. now right.
Qed.

(** The extension [splitext] returns lies in the last path component. *)
Lemma splitext_ext_no_slash (p : str) : ~ In slash (snd (PosixPath.splitext p)).
Proof.
  unfold PosixPath.splitext.
  destruct ((rfind slash p <? rfind dot p)%Z && _) eqn:E; cbn [snd]; [|intros []].
  apply andb_true_iff in E as [E _]. apply Z.ltb_lt in E.
  unfold slice_from.
  destruct (last_occurrence slash p) as [Hn|(a & f & -> & Hf)].
  - intros H. apply Hn. eapply in_skipn. exact H.
  - unfold rfind at 1 in E. rewrite rfind_from_last in E by assumption.
    intros H. apply Hf.
    rewrite skipn_app, skipn_all2 in H by lia. simpl in H.
    destruct (Z.to_nat (rfind dot (a ++ slash :: f)) - List.length a) as [|m] eqn:Em;
      [lia|].
    simpl in H. eapply in_skipn. exact H.
Qed.

Lemma endswith_sep_cut (a : str) :
  PosixPath.endswith_sep a = true -> exists t, a = t ++ [slash].
Proof.
  unfold PosixPath.endswith_sep. destruct (rev a) as [|c t] eqn:E; [discriminate|].
  intros H. apply N.eqb_eq in H. subst c. exists (rev t).
  rewrite <- (rev_involutive a), E. reflexivity.
Qed.

(** The scratch file is named after the random part and the extension
    of the object key, whatever the directory. *)
Lemma basename_scratch_path (e : env) (key : str) :
  ~ In slash (tmp_rand e) ->
  PosixPath.basename (scratch_path e key) =
  py "tmp" ++ tmp_rand e ++ snd (PosixPath.splitext key).
Proof.
  intros Hr. unfold scratch_path.
  set (f := py "tmp" ++ tmp_rand e ++ snd (PosixPath.splitext key)).
  assert (Hf : ~ In slash f).
  { subst f. intros H. apply in_app_or in H as [H|H].
    - simpl in H. repeat destruct H as [H|H]; try discriminate H. exact H.
    - apply in_app_or in H as [H|H]; [now apply Hr|].
      now apply (splitext_ext_no_slash key). }
  unfold PosixPath.join2.
  replace (PosixPath.startswith_sep f) with false by reflexivity.
  destruct (truthy (tmp_dir e)) eqn:Ta.
  - cbn [negb orb]. destruct (PosixPath.endswith_sep (tmp_dir e)) eqn:Ea.
    + apply endswith_sep_cut in Ea as [t ->].
      rewrite <- app_assoc. now apply basename_cut.
    + now apply basename_cut.
  - apply truthy_false in Ta. rewrite Ta. cbn [negb orb app].
    now apply basename_plain.
Qed.

End Names.

Section Requests.

Variable cfg : config.
Variable e : env.
Variable w : world.

Lemma in_external (r : upload_request) (evs : list event) :
  In (EvCliqPost r) evs -> In (EvCliqPost r) (external evs).
Proof. intros H. apply filter_In. now split. Qed.

Lemma token_events_no_post (r : upload_request) (tevs : list event) :
  tevs = [] \/
  tevs = [EvTokenPost ZOHO_TOKEN_URL (token_payload_of cfg)] \/
  tevs = [EvTokenPost ZOHO_TOKEN_URL (token_payload_of cfg); EvPrint MsgTokenOk] ->
  ~ In (EvCliqPost r) tevs.
Proof.
  intros [-> | [-> | ->]] H; simpl in H;
    repeat destruct H as [H|H]; try discriminate H; exact H.
Qed.

(** Every upload request of a run is the one of a resolved recipient. *)
Lemma main_posts (r : upload_request) :
  In (EvCliqPost r) (trace (snd (main cfg e w))) ->
  In (EvCliqPost r) (trace w) \/
  exists key tok content uid,
    AWS_S3_FILE_KEY cfg = Some key /\
    In uid (parse_user_ids (ZOHO_CLIQ_USER_IDS cfg)) /\
    r = request_of cfg tok (scratch_path e key) content uid.
Proof.
  destruct (token_world cfg e (add_events w banner)) as (tevs & Tw & Tshape).
  pose proof (token_events_no_post r tevs Tshape) as Tn.
  assert (Bn : ~ In (EvCliqPost r) banner).
  { intros H. simpl in H. repeat destruct H as [H|H]; try discriminate H; exact H. }
  destruct (opt_truthy (AWS_S3_BUCKET cfg) && opt_truthy (AWS_S3_FILE_KEY cfg)) eqn:Hbk.
  - destruct (AWS_S3_BUCKET cfg) as [b|] eqn:Hb; [|discriminate].
    destruct (AWS_S3_FILE_KEY cfg) as [k|] eqn:Hk;
      [|simpl in Hbk; rewrite andb_false_r in Hbk; discriminate].
    apply andb_true_iff in Hbk as [Tb Tk]. simpl in Tb, Tk.
    rewrite (main_eq cfg e w b k Hb Hk Tb Tk).
    destruct (get_zoho_access_token cfg e (add_events w banner)) as [[tok|x] w2];
      simpl in Tw; subst w2.
    + destruct (s3_reply e b k) as [content| |].
      * destruct (parse_user_ids (ZOHO_CLIQ_USER_IDS cfg)) as [|u us] eqn:Hp.
        -- unfold world_at_resolve, world_at_download, add_events.
           cbn [snd fs trace]. rewrite !in_app_iff. simpl. intuition discriminate.
        -- cbv zeta.
           pose proof (scratch_file_written cfg e b k
                         (add_events (add_events w banner) tevs) content) as Hf.
           destruct (trace_at_upload cfg e b k
                       (add_events (add_events w banner) tevs) content)
             as (pre & P1 & P2).
           rewrite Hp in Hf, P1.
           set (w5 := world_at_upload cfg e b k content (u :: us) _) in *.
           destruct (upload_loop_trace cfg e tok (scratch_path e k) content
                       (u :: us) [] w5 Hf) as (evs & n & T1 & T2 & _).
           assert (Hevs : In (EvCliqPost r) evs ->
                          exists uid, In uid (u :: us) /\
                            r = request_of cfg tok (scratch_path e k) content uid).
           { intros H. apply in_external in H. rewrite T2 in H.
             apply in_map_iff in H as (uid & [= <-] & Hin).
             exists uid. split; [|reflexivity].
             rewrite <- (firstn_skipn n (u :: us)). apply in_or_app. now left. }
           assert (Hpre : ~ In (EvCliqPost r) pre).
           { intros H. apply in_external in H. rewrite P2 in H. simpl in H.
             repeat destruct H as [H|H]; try discriminate H; exact H. }
           destruct (upload_loop cfg e tok (scratch_path e k) (u :: us) [] w5)
             as [[results|x] w6]; simpl in T1; subst w6.
           ++ destruct (finish_spec e (scratch_path e k) results (add_events w5 evs))
                as (fevs & -> & F1 & _).
              cbn [snd trace add_events]. rewrite P1. cbn [trace add_events].
              rewrite !in_app_iff.
              intros [[[[H|H]|H]|H]|H]; try tauto.
              ** right. destruct (Hevs H) as (uid & Hin & ->).
                 now exists k, tok, content, uid.
              ** apply in_external in H. rewrite F1 in H. simpl in H.
                 destruct H as [H|[]]. discriminate H.
           ++ cbn [snd trace add_events]. rewrite P1. cbn [trace add_events].
              rewrite !in_app_iff.
              intros [[[H|H]|H]|H]; try tauto.
              right. destruct (Hevs H) as (uid & Hin & ->).
              now exists k, tok, content, uid.
      * unfold world_at_download, add_events.
        cbn [snd fs trace]. rewrite !in_app_iff. simpl. intuition discriminate.
      * unfold world_at_download, add_events.
        cbn [snd fs trace]. rewrite !in_app_iff. simpl. intuition discriminate.
    + cbn [snd trace add_events]. rewrite !in_app_iff. tauto.
  - rewrite (main_missing_bucket cfg e w Hbk).
    destruct (get_zoho_access_token cfg e (add_events w banner)) as [[tok|x] w2];
      simpl in Tw; subst w2; cbn [snd trace add_events]; rewrite !in_app_iff.
    + simpl. intuition discriminate.
    + tauto.
Qed.

End Requests.

(** C4, as the code has it.  An upload request carries the base name of
    the file it is given, the recipient id and the bot name as passed;
    in a run of [main] the file is the scratch file, so every request
    carries the scratch file's base name, a resolved recipient id and
    the configured bot name.  Of the source object's name that base
    name keeps the extension only. *)
Theorem upload_request_names :
  (forall e tok path uid bot comments w r,
      In (EvCliqPost r)
        (trace (snd (upload_file_to_zoho_cliq e tok path uid bot comments w))) ->
      In (EvCliqPost r) (trace w) \/
      (req_file_name r = PosixPath.basename path /\
       req_user_id r = uid /\ req_bot_name r = bot))
  /\ (forall cfg e w r,
        In (EvCliqPost r) (trace (snd (main cfg e w))) ->
        In (EvCliqPost r) (trace w) \/
        exists key,
          AWS_S3_FILE_KEY cfg = Some key /\
          req_file_name r = PosixPath.basename (scratch_path e key) /\
          In (req_user_id r) (parse_user_ids (ZOHO_CLIQ_USER_IDS cfg)) /\
          req_bot_name r = ZOHO_BOT_NAME cfg)
  /\ (forall e key,
        ~ In slash (tmp_rand e) ->
        PosixPath.basename (scratch_path e key) =
        py "tmp" ++ tmp_rand e ++ snd (PosixPath.splitext key)).
Proof.
  split; [|split].
  - intros e tok path uid bot comments w r. rewrite upload_eq. cbv zeta.
    destruct (fs_lookup path (fs w)) as [content|].
    + destruct (cliq_reply e _ _) as [resp|].
      * destruct (status_code resp =? 200)%Z; [destruct (json resp)|];
          cbn [snd trace add_events]; rewrite !in_app_iff; simpl;
          intros H; decompose [or] H; try discriminate; try tauto;
          match goal with
          | E : EvCliqPost _ = EvCliqPost r |- _ => injection E as <-
          end; right; repeat split.
      * cbn [snd trace add_events]; rewrite !in_app_iff; simpl;
          intros H; decompose [or] H; try discriminate; try tauto;
          match goal with
          | E : EvCliqPost _ = EvCliqPost r |- _ => injection E as <-
          end; right; repeat split.
    + cbn [snd trace add_events]. rewrite in_app_iff. simpl.
      intros [H|[H|[]]]; [now left|discriminate].
  - intros cfg e w r H.
    destruct (main_posts cfg e w r H) as [Hw|(key & tok & content & uid & Hk & Hin & ->)].
    + now left.
    + right. exists key. repeat split; assumption.
  - intros e key H. now apply basename_scratch_path.
Qed.

Lemma upload_request_names_witness :
  PosixPath.basename (scratch_path (sample_env all_delivered) (py "daily/metal.xlsx"))
  = py "tmpab12cd34.xlsx".
Proof.
  refine (proj2 (proj2 upload_request_names) (sample_env all_delivered)
            (py "daily/metal.xlsx") _).
  intros H. simpl in H. repeat destruct H as [H|H]; try discriminate H. exact H.
Defined.

(** C4 as stated fails for the file name: the source object is
    [daily/metal.xlsx], and the request sent for the first recipient
    names the file after the scratch file, not [metal.xlsx]. *)
Lemma upload_names_the_scratch_file :
  let run := main sample_config (sample_env all_delivered) initial_world in
  exists r,
    In (EvCliqPost r) (trace (snd run)) /\
    AWS_S3_FILE_KEY sample_config = Some (py "daily/metal.xlsx") /\
    PosixPath.basename (py "daily/metal.xlsx") = py "metal.xlsx" /\
    req_file_name r = py "tmpab12cd34.xlsx" /\
    req_file_name r <> PosixPath.basename (py "daily/metal.xlsx").
Proof.
  exists (request_of sample_config (VStr (py "1000.access"))
            (py "/tmp/tmpab12cd34.xlsx") sample_object (py "101")).
  split; [|split; [|split; [|split]]].
  - vm_compute. repeat (try (left; reflexivity); right).
  - reflexivity.
  - reflexivity.
  - reflexivity.
  - vm_compute. discriminate.
Qed.

(* ================================================================== *)
(** ** Further properties of the resolver *)
(* ================================================================== *)

Section ResolverMore.

Lemma is_trim_of_incl (x t : str) (c : N) : is_trim_of x t -> In c t -> In c x.
Proof.
  intros (l & r & -> & _) H. apply in_or_app. right. apply in_or_app. now left.
Qed.

Lemma strip_wf (p : str) :
  ~ In comma p -> strip p <> [] -> wf_id (strip p).
Proof.
  intros Hc Hne. pose proof (strip_is_trim p) as Ht.
  split; [assumption|]. split.
  - intros H. apply Hc. eapply is_trim_of_incl; eassumption.
  - destruct Ht as (l & r & _ & _ & _ & Hl & Hr). now split.
Qed.

Lemma parse_user_ids_wf (s : str) : Forall wf_id (parse_user_ids s).
Proof.
  unfold parse_user_ids. pose proof (split_no_sep comma s) as Hs.
  induction Hs as [|p ps Hp _ IH]; simpl; [constructor|].
  destruct (truthy (strip p)) eqn:E; [|exact IH].
  simpl. constructor; [|exact IH].
  apply strip_wf; [assumption|now apply truthy_true].
Qed.

Lemma split_length (s : str) : List.length (split comma s) = S (commas s).
Proof.
  unfold commas. induction s as [|c s IH]; [reflexivity|].
  simpl. destruct (N.eqb c comma).
  - simpl. now rewrite IH.
  - destruct (split comma s); simpl in *; lia.
Qed.

Lemma parse_user_ids_length (s : str) :
  List.length (parse_user_ids s) <= S (commas s).
Proof.
  unfold parse_user_ids. rewrite length_map, <- split_length.
  apply filter_length_le.
Qed.

End ResolverMore.

(** X1. The identifiers the resolver returns are well formed: none is
    empty, holds a comma, or begins or ends with white space; there are
    at most one more of them than commas in the setting.  The resolver
    prints its one line and touches no file. *)
Theorem get_user_ids_well_formed :
  forall cfg w ids w',
    get_user_ids cfg w = (Ok ids, w') ->
    Forall wf_id ids /\
    1 <= List.length ids <= S (commas (ZOHO_CLIQ_USER_IDS cfg)) /\
    w' = add_events w [EvPrint (MsgUsing (List.length ids))].
Proof.
  intros cfg w ids w' H. rewrite get_user_ids_eq in H.
  pose proof (parse_user_ids_wf (ZOHO_CLIQ_USER_IDS cfg)) as Hwf.
  pose proof (parse_user_ids_length (ZOHO_CLIQ_USER_IDS cfg)) as Hlen.
  destruct (parse_user_ids (ZOHO_CLIQ_USER_IDS cfg)) as [|u us]; [discriminate|].
  injection H as <- <-. split; [assumption|]. split; [|reflexivity].
  simpl in *. lia.
Qed.

Lemma get_user_ids_well_formed_witness :
  Forall wf_id [py "60019117005"; py "60019117006"; py "60019117005"] /\
  1 <= 3 <= S (commas (ZOHO_CLIQ_USER_IDS (load_config padded_environ))) /\
  add_events initial_world [EvPrint (MsgUsing 3)]
  = add_events initial_world [EvPrint (MsgUsing 3)].
Proof.
  apply (get_user_ids_well_formed (load_config padded_environ) initial_world).
  reflexivity.
Defined.

(** X2. Resolving is idempotent through the setting's own format: the
    identifiers resolved from a setting, joined with commas and resolved
    again, are the same identifiers, repetitions included. *)
Theorem get_user_ids_round_trip :
  forall cfg cfg' w w0 ids w',
    get_user_ids cfg w = (Ok ids, w') ->
    ZOHO_CLIQ_USER_IDS cfg' = join comma ids ->
    fst (get_user_ids cfg' w0) = Ok ids.
Proof.
  intros cfg cfg' w w0 ids w' H E.
  pose proof (parse_user_ids_wf (ZOHO_CLIQ_USER_IDS cfg)) as Hwf.
  rewrite get_user_ids_eq in H.
  destruct (parse_user_ids (ZOHO_CLIQ_USER_IDS cfg)) as [|u us] eqn:Hp; [discriminate|].
  injection H as <- _.
  rewrite get_user_ids_eq, E, parse_user_ids_join; [reflexivity|discriminate|assumption].
Qed.

Lemma get_user_ids_round_trip_witness :
  fst (get_user_ids (load_config repeated_environ) initial_world)
  = Ok [py "60019117005"; py "60019117006"; py "60019117005"].
Proof.
  apply (get_user_ids_round_trip (load_config padded_environ)
           (load_config repeated_environ) initial_world initial_world
           [py "60019117005"; py "60019117006"; py "60019117005"]
           (add_events initial_world [EvPrint (MsgUsing 3)])).
  - reflexivity.
  - reflexivity.
Defined.

(* ================================================================== *)
(** ** The object fetcher *)
(* ================================================================== *)

Section Fetcher.

Lemma fs_lookup_remove_other (p q : str) (f : list (str * bytes)) :
  q <> p -> fs_lookup q (fs_remove p f) = fs_lookup q f.
Proof.
  intros Hne. induction f as [|[r c] f IH]; simpl; [reflexivity|].
  destruct (Str.eqb r p) eqn:Ep.
  - apply eqb_eq in Ep. subst r.
    destruct (Str.eqb p q) eqn:Eq; [apply eqb_eq in Eq; congruence|exact IH].
  - simpl. destruct (Str.eqb r q); [reflexivity|exact IH].
Qed.

Lemma fs_lookup_write_other (p q : str) (c : bytes) (f : list (str * bytes)) :
  q <> p -> fs_lookup q (fs_write p c f) = fs_lookup q f.
Proof.
  intros Hne. unfold fs_write. simpl.
  destruct (Str.eqb p q) eqn:E; [apply eqb_eq in E; congruence|].
  now apply fs_lookup_remove_other.
Qed.

Lemma download_file_from_s3_eq (cfg : config) (e : env)
    (bucket key local_path : str) (w : world) :
  download_file_from_s3 cfg e bucket key local_path w =
  let asked := EvS3Download (AWS_REGION cfg) bucket key local_path in
  match s3_reply e bucket key with
  | S3Object content =>
      (Ok local_path,
       {| fs := fs_write local_path content (fs w);
          trace := trace w ++ [asked; EvPrint (MsgDownloaded bucket key)] |})
  | S3ClientError => (Raise DownloadFailed, add_events w [asked])
  | S3OtherError => (Raise BotoError, add_events w [asked])
  end.
Proof.
  unfold download_file_from_s3. unfold bind at 1. rewrite emit_eq. cbv zeta.
  destruct (s3_reply e bucket key); try reflexivity.
  cbv beta iota zeta delta [bind write_file print emit ret add_events].
  cbn [fs trace]. now rewrite <- !app_assoc.
Qed.

End Fetcher.

(** X3. The fetcher asks the storage once, for the bucket and key it is
    given, in the configured region.  When the object is there, the
    destination holds its whole content afterwards, every other file is
    as before, and the destination path is returned.  A [ClientError] is
    raised again as the wrapping exception and any other storage error
    as it is; in both cases no file is touched. *)
Theorem download_file_from_s3_outcomes :
  forall cfg e bucket key local_path w,
    let run := download_file_from_s3 cfg e bucket key local_path w in
    let asked := EvS3Download (AWS_REGION cfg) bucket key local_path in
    (forall content,
        s3_reply e bucket key = S3Object content ->
        fst run = Ok local_path /\
        fs_lookup local_path (fs (snd run)) = Some content /\
        (forall q, q <> local_path ->
                   fs_lookup q (fs (snd run)) = fs_lookup q (fs w)) /\
        trace (snd run) = trace w ++ [asked; EvPrint (MsgDownloaded bucket key)])
    /\ (s3_reply e bucket key = S3ClientError ->
        run = (Raise DownloadFailed, add_events w [asked]))
    /\ (s3_reply e bucket key = S3OtherError ->
        run = (Raise BotoError, add_events w [asked])).
Proof.
  intros cfg e bucket key local_path w run asked. subst run asked.
  rewrite download_file_from_s3_eq. cbv zeta.
  split; [|split].
  - intros content ->. cbn [fst snd fs trace]. repeat split.
    + apply fs_lookup_write.
    + intros q Hq. now apply fs_lookup_write_other.
  - intros ->. reflexivity.
  - intros ->. reflexivity.
Qed.

Lemma download_file_from_s3_outcomes_witness :
  fst (download_file_from_s3 sample_config (sample_env all_delivered)
         (py "prices") (py "daily/metal.xlsx") (py "/tmp/tmpab12cd34.xlsx")
         initial_world)
  = Ok (py "/tmp/tmpab12cd34.xlsx").
Proof.
  refine (proj1 (proj1 (download_file_from_s3_outcomes sample_config
    (sample_env all_delivered) (py "prices") (py "daily/metal.xlsx")
    (py "/tmp/tmpab12cd34.xlsx") initial_world) sample_object _)).
  reflexivity.
Defined.

(* ================================================================== *)
(** ** Failures of the token exchange *)
(* ================================================================== *)

(** X4. With the credentials set, the refresher sends its request once
    and touches no file, whatever follows.  It raises the network error
    when there is no response, the HTTP error for a status from 400 to
    599, the decoding error for a body that is not JSON, an attribute
    error for JSON that is not an object, and its own error for a token
    that is missing or falsy (empty, null, zero, false).  Every other
    response is accepted, whatever its status below 400 or from 600 on,
    and its token is returned as it is, string or not. *)
Theorem get_zoho_access_token_outcomes :
  forall cfg e w,
    credentials_set cfg = true ->
    let run := get_zoho_access_token cfg e w in
    let w1 := add_events w [token_post cfg] in
    let reply := token_reply e (token_payload_of cfg) in
    (reply = None -> run = (Raise RequestException, w1))
    /\ (forall r,
          reply = Some r -> (400 <= status_code r < 600)%Z ->
          run = (Raise (HTTPError (status_code r)), w1))
    /\ (forall r,
          reply = Some r -> ~ (400 <= status_code r < 600)%Z ->
          (json r = None -> run = (Raise JSONDecodeError, w1))
          /\ (forall v, json r = Some v -> (forall d, v <> VDict d) ->
                        run = (Raise AttributeError, w1))
          /\ (forall d, json r = Some (VDict d) ->
                dict_get (py "access_token") d = None ->
                run = (Raise (ValueError (NoAccessToken (VDict d))), w1))
          /\ (forall d v, json r = Some (VDict d) ->
                dict_get (py "access_token") d = Some v ->
                run = if value_truthy v
                      then (Ok v, add_events w1 [EvPrint MsgTokenOk])
                      else (Raise (ValueError (NoAccessToken (VDict d))), w1))).
Proof.
  intros cfg e w Hc run w1 reply. subst run w1 reply. unfold token_post.
  rewrite get_zoho_access_token_eq, Hc. cbn [negb]. cbv zeta.
  split; [|split].
  - intros ->. reflexivity.
  - intros r -> Hs.
    replace ((400 <=? status_code r) && (status_code r <? 600))%Z with true;
      [reflexivity|].
    symmetry. apply andb_true_iff. split; [apply Z.leb_le|apply Z.ltb_lt]; lia.
  - intros r -> Hs.
    replace ((400 <=? status_code r) && (status_code r <? 600))%Z with false.
    2:{ symmetry. apply andb_false_iff.
        destruct (Z.leb_spec 400 (status_code r)); [right|left; reflexivity].
        apply Z.ltb_ge. lia. }
    repeat split.
    + intros ->. reflexivity.
    + intros v -> Hv. destruct v; try reflexivity. now elim (Hv d).
    + intros d -> ->. reflexivity.
    + intros d v -> ->. destruct (value_truthy v); reflexivity.
Qed.

Lemma get_zoho_access_token_outcomes_witness :
  get_zoho_access_token sample_config
    {| token_reply := fun _ => Some server_error;
       s3_reply := fun _ _ => S3ClientError;
       cliq_reply := all_delivered;
       tmp_dir := py "/tmp"; tmp_rand := py "ab12cd34"; unlink_fails := false |}
    initial_world
  = (Raise (HTTPError 500), add_events initial_world [token_post sample_config]).
Proof.
  refine (proj1 (proj2 (get_zoho_access_token_outcomes sample_config _
            initial_world _)) server_error _ _).
  - reflexivity.
  - reflexivity.
  - simpl. lia.
Defined.

(* ================================================================== *)
(** ** One upload, whatever happens *)
(* ================================================================== *)

(** X5. An upload never changes a file, and sends one request at most.
    When the file to send cannot be opened, the error is raised with no
    request sent.  Otherwise exactly one request is sent, to the files
    endpoint, with the token and the whole content of the file; without
    comments given it carries the default comment. *)
Theorem upload_file_to_zoho_cliq_sends_once :
  forall e tok path uid bot comments w,
    let run := upload_file_to_zoho_cliq e tok path uid bot comments w in
    fs (snd run) = fs w
    /\ (fs_lookup path (fs w) = None ->
        run = (Raise FileNotFoundError,
               add_events w [EvPrint (MsgRequestUrl ZOHO_CLIQ_FILES_URL)]))
    /\ (forall content,
          fs_lookup path (fs w) = Some content ->
          exists evs r,
            snd run = add_events w evs /\
            external evs = [EvCliqPost r] /\
            req_url r = ZOHO_CLIQ_FILES_URL /\
            req_authorization r = tok /\
            req_file_content r = content /\
            req_comments r = match comments with
                             | None => [py "Server image"]
                             | Some c => c
                             end).
Proof.
  intros e tok path uid bot comments w run. subst run.
  rewrite upload_eq. cbv zeta.
  destruct (fs_lookup path (fs w)) as [content|].
  - split; [|split; [discriminate|]].
    + destruct (cliq_reply e _ _) as [resp|]; [|reflexivity].
      destruct (status_code resp =? 200)%Z; [destruct (json resp)|]; reflexivity.
    + intros c [= <-].
      destruct (cliq_reply e _ _) as [resp|].
      * destruct (status_code resp =? 200)%Z; [destruct (json resp)|];
          cbn [snd]; rewrite !add_events_app; eexists; eexists;
          (split; [reflexivity|]); repeat split.
      * cbn [snd]. rewrite !add_events_app. eexists. eexists.
        split; [reflexivity|]. repeat split.
  - split; [reflexivity|]. split; [reflexivity|discriminate].
Qed.

Lemma upload_file_to_zoho_cliq_sends_once_witness :
  upload_file_to_zoho_cliq (sample_env all_delivered) (VStr (py "1000.access"))
    (py "/tmp/gone.xlsx") (py "101") (py "Metal Price Tracker") None initial_world
  = (Raise FileNotFoundError,
     add_events initial_world [EvPrint (MsgRequestUrl ZOHO_CLIQ_FILES_URL)]).
Proof.
  refine (proj1 (proj2 (upload_file_to_zoho_cliq_sends_once
    (sample_env all_delivered) (VStr (py "1000.access")) (py "/tmp/gone.xlsx")
    (py "101") (py "Metal Price Tracker") None initial_world)) _).
  reflexivity.
Defined.

(* ================================================================== *)
(** ** The summary on any result *)
(* ================================================================== *)

Section SummaryMore.

Lemma contains_error_container (v : value) :
  contains_error v = if is_container v then Ok (has_error v) else Raise TypeError.
Proof. destruct v; reflexivity. Qed.

Lemma count_successful_containers (results : list entry) :
  forallb (fun r => is_container (result r)) results = true ->
  count_successful results =
  Ok (List.length (filter (fun r => negb (has_error (result r))) results)).
Proof.
  induction results as [|r rest IH]; [reflexivity|].
  simpl. intros H. apply andb_true_iff in H as [Hr Hrest].
  rewrite contains_error_container, Hr, (IH Hrest).
  destruct (has_error (result r)); reflexivity.
Qed.

Lemma count_successful_type_error (results : list entry) :
  forallb (fun r => is_container (result r)) results = false ->
  count_successful results = Raise TypeError.
Proof.
  induction results as [|r rest IH]; [discriminate|].
  simpl. rewrite contains_error_container.
  destruct (is_container (result r)); [|reflexivity].
  simpl. intros H. rewrite (IH H). reflexivity.
Qed.

End SummaryMore.

(** X6. The count of the summary is defined when every result is a
    dict, a list or a string: it is then the number of results in which
    ["error"] does not occur (as a key, an item or a substring), never
    more than the number of results.  As soon as one result is anything
    else (a number, a boolean, null), the count raises a type error: the
    summary then stops after its heading, with no count printed. *)
Theorem count_successful_on_any_result :
  forall results w,
    let n := List.length (filter (fun r => negb (has_error (result r))) results) in
    let heading := [EvPrint MsgRule; EvPrint MsgSummary; EvPrint MsgRule] in
    n <= List.length results
    /\ (forallb (fun r => is_container (result r)) results = true ->
        count_successful results = Ok n /\
        summary results w =
        (Ok tt,
         add_events w (heading ++ [EvPrint (MsgSuccessful n (List.length results));
                                   EvPrint MsgDone])))
    /\ (forallb (fun r => is_container (result r)) results = false ->
        count_successful results = Raise TypeError /\
        summary results w = (Raise TypeError, add_events w heading)).
Proof.
  intros results w n heading. subst n heading.
  split; [apply filter_length_le|]. split; intros H.
  - split; [now apply count_successful_containers|].
    rewrite summary_eq. cbv zeta. rewrite (count_successful_containers results H).
    now rewrite add_events_app.
  - split; [now apply count_successful_type_error|].
    rewrite summary_eq. cbv zeta. now rewrite (count_successful_type_error results H).
Qed.

Lemma count_successful_on_any_result_witness :
  count_successful
    [{| user_id := py "101"; result := VDict [(py "status", VStr (py "sent"))] |};
     {| user_id := py "102"; result := VInt 1 |}]
  = Raise TypeError.
Proof.
  refine (proj1 (proj2 (proj2 (count_successful_on_any_result _ initial_world)) _)).
  reflexivity.
Defined.

(* ================================================================== *)
(** ** The cleanup *)
(* ================================================================== *)

(** X7. The cleanup never raises and tries the deletion exactly once.
    Unless the deletion fails the scratch file is gone afterwards; a
    file that is not there, like a deletion that fails, only gives the
    warning.  No other file is touched in any case. *)
Theorem cleanup_removes_only_the_scratch_file :
  forall e path w,
    let run := cleanup e path w in
    fst run = Ok tt
    /\ (exists evs, trace (snd run) = trace w ++ evs /\ external evs = [EvUnlink path])
    /\ (forall q, q <> path -> fs_lookup q (fs (snd run)) = fs_lookup q (fs w))
    /\ (unlink_fails e = false -> fs_lookup path (fs (snd run)) = None)
    /\ (unlink_fails e = true ->
        snd run = add_events w [EvUnlink path; EvPrint (MsgWarnDelete OSError)])
    /\ (unlink_fails e = false -> fs_lookup path (fs w) = None ->
        snd run = add_events w [EvUnlink path;
                                EvPrint (MsgWarnDelete FileNotFoundError)]).
Proof.
  intros e path w run. subst run. rewrite cleanup_eq. cbn [fst snd].
  split; [reflexivity|].
  destruct (unlink_fails e).
  - repeat split; try discriminate. eexists. split; reflexivity.
  - destruct (fs_lookup path (fs w)) eqn:Hf.
    + repeat split; try discriminate.
      * eexists. split; reflexivity.
      * intros q Hq. cbn [fs]. now apply fs_lookup_remove_other.
      * intros _. cbn [fs]. apply fs_lookup_remove.
    + repeat split; try discriminate.
      * eexists. split; reflexivity.
      * intros _. exact Hf.
Qed.

Lemma cleanup_removes_only_the_scratch_file_witness :
  fs_lookup (py "/tmp/tmpab12cd34.xlsx")
    (fs (snd (cleanup (sample_env all_delivered) (py "/tmp/tmpab12cd34.xlsx")
                {| fs := [(py "/tmp/tmpab12cd34.xlsx", sample_object)];
                   trace := [] |})))
  = None.
Proof.
  refine (proj1 (proj2 (proj2 (proj2 (cleanup_removes_only_the_scratch_file
    (sample_env all_delivered) (py "/tmp/tmpab12cd34.xlsx") _)))) _).
  reflexivity.
Defined.

(* ================================================================== *)
(** ** The shape of every run *)
(* ================================================================== *)

Section RunShape.

Variable cfg : config.
Variable e : env.

Lemma token_external (w : world) :
  credentials_set cfg = true ->
  exists tevs,
    snd (get_zoho_access_token cfg e w) = add_events w tevs /\
    external tevs = [token_post cfg].
Proof.
  intros Hc. rewrite get_zoho_access_token_eq, Hc. cbn [negb]. cbv zeta.
  destruct (token_reply e (token_payload_of cfg)) as [r|];
    [|eexists; split; reflexivity].
  destruct ((400 <=? status_code r) && (status_code r <? 600))%Z;
    [eexists; split; reflexivity|].
  destruct (json r) as [[| | | | | |d]|]; try (eexists; split; reflexivity).
  match goal with |- context [value_truthy ?v] => destruct (value_truthy v) end;
    [|eexists; split; reflexivity].
  eexists. rewrite add_events_app. split; reflexivity.
Qed.

Variable tok : value.
Variable path : str.
Variable content : bytes.

(** The loop, whether it returns or raises. *)
Lemma upload_loop_shape (ids : list str) :
  forall (acc : list entry) (w : world),
    fs_lookup path (fs w) = Some content ->
    exists evs n,
      snd (upload_loop cfg e tok path ids acc w) = add_events w evs /\
      external evs =
      List.map (fun uid => EvCliqPost (request_of cfg tok path content uid))
        (firstn n ids) /\
      n <= List.length ids /\
      (forall results,
          fst (upload_loop cfg e tok path ids acc w) = Ok results ->
          n = List.length ids /\
          List.map user_id results = List.map user_id acc ++ ids) /\
      (forall x,
          fst (upload_loop cfg e tok path ids acc w) = Raise x ->
          1 <= n /\ (x = RequestException \/ x = JSONDecodeError)).
Proof.
  induction ids as [|uid rest IH]; intros acc w Hf.
  - exists [], 0. simpl. rewrite add_events_nil.
    split; [reflexivity|]. split; [reflexivity|]. split; [lia|]. split.
    + intros results [= <-]. split; [reflexivity|now rewrite app_nil_r].
    + discriminate.
  - rewrite (upload_loop_step cfg e tok path content uid rest acc w Hf).
    destruct (cliq_reply e (cliq_posts (trace w))
                (request_of cfg tok path content uid)) as [resp|].
    + destruct (status_code resp =? 200)%Z.
      * destruct (json resp) as [v|].
        -- match goal with
           | |- context [upload_loop cfg e tok path rest ?a ?w'] =>
               destruct (IH a w' Hf) as (evs & n & E1 & E2 & E3 & E4 & E5)
           end.
           eexists (_ ++ evs), (S n).
           rewrite E1, add_events_app. split; [reflexivity|]. split; [|split; [|split]].
           ++ rewrite external_app, E2. reflexivity.
           ++ simpl. lia.
           ++ intros results Hr. destruct (E4 results Hr) as [-> Hm].
              split; [reflexivity|].
              rewrite Hm, map_app, <- app_assoc. reflexivity.
           ++ intros x Hx. destruct (E5 x Hx) as [_ Hx']. split; [lia|assumption].
        -- eexists _, 1. split; [reflexivity|]. cbn [fst].
           split; [reflexivity|]. split; [simpl; lia|]. split; [discriminate|].
           intros x [= <-]. split; [lia|now right].
      * match goal with
        | |- context [upload_loop cfg e tok path rest ?a ?w'] =>
            destruct (IH a w' Hf) as (evs & n & E1 & E2 & E3 & E4 & E5)
        end.
        eexists (_ ++ evs), (S n).
        rewrite E1, add_events_app. split; [reflexivity|]. split; [|split; [|split]].
        -- rewrite external_app, E2. reflexivity.
        -- simpl. lia.
        -- intros results Hr. destruct (E4 results Hr) as [-> Hm].
           split; [reflexivity|].
           rewrite Hm, map_app, <- app_assoc. reflexivity.
        -- intros x Hx. destruct (E5 x Hx) as [_ Hx']. split; [lia|assumption].
    + eexists _, 1. split; [reflexivity|]. cbn [fst].
      split; [reflexivity|]. split; [simpl; lia|]. split; [discriminate|].
      intros x [= <-]. split; [lia|now left].
Qed.

End RunShape.

Section RunShapeMain.

Variable cfg : config.
Variable e : env.
Variable w : world.

Lemma main_run_shape :
  exists evs,
    trace (snd (main cfg e w)) = trace w ++ evs /\
    run_shape cfg e w (fst (main cfg e w)) (external evs).
Proof.
  destruct (credentials_set cfg) eqn:Hc.
  2:{ rewrite (main_missing_credentials cfg e w Hc). exists banner.
      split; [reflexivity|]. now apply run_no_credentials. }
  destruct (token_external cfg e (add_events w banner) Hc) as (tevs & Tw & Text).
  destruct (opt_truthy (AWS_S3_BUCKET cfg) && opt_truthy (AWS_S3_FILE_KEY cfg)) eqn:Hbk.
  - destruct (AWS_S3_BUCKET cfg) as [b|] eqn:Hb; [|discriminate].
    destruct (AWS_S3_FILE_KEY cfg) as [k|] eqn:Hk;
      [|simpl in Hbk; rewrite andb_false_r in Hbk; discriminate].
    apply andb_true_iff in Hbk as [Tb Tk]. simpl in Tb, Tk.
    rewrite (main_eq cfg e w b k Hb Hk Tb Tk).
    destruct (get_zoho_access_token cfg e (add_events w banner)) as [[tok|x] w2] eqn:Ht;
      simpl in Tw; subst w2.
    + destruct (s3_reply e b k) as [content| |] eqn:Hs.
      * destruct (parse_user_ids (ZOHO_CLIQ_USER_IDS cfg)) as [|u us] eqn:Hp.
        -- exists (banner ++ tevs ++
                   [EvPrint MsgStep2; EvTempCreate (scratch_path e k);
                    EvS3Download (AWS_REGION cfg) b k (scratch_path e k);
                    EvPrint (MsgDownloaded b k); EvPrint MsgStep3]).
           split.
           ++ unfold world_at_resolve, world_at_download, add_events.
              cbn [snd fs trace]. rewrite <- !app_assoc. reflexivity.
           ++ rewrite !external_app, Text. cbn [fst].
              apply (run_no_recipients cfg e w tok b k content); auto; rewrite Ht; reflexivity.
        -- cbv zeta.
           pose proof (scratch_file_written cfg e b k
                         (add_events (add_events w banner) tevs) content) as Hf.
           destruct (trace_at_upload cfg e b k
                       (add_events (add_events w banner) tevs) content)
             as (pre & P1 & P2).
           rewrite Hp in Hf, P1.
           set (w5 := world_at_upload cfg e b k content (u :: us) _) in *.
           destruct (upload_loop_shape cfg e tok (scratch_path e k) content
                       (u :: us) [] w5 Hf) as (evs & n & T1 & T2 & T3 & T4 & T5).
           destruct (upload_loop cfg e tok (scratch_path e k) (u :: us) [] w5)
             as [[results|x] w6]; simpl in T1; subst w6.
           ++ destruct (T4 results eq_refl) as [Hn Hm]. subst n.
              destruct (finish_spec e (scratch_path e k) results (add_events w5 evs))
                as (fevs & -> & F1 & _).
              exists (banner ++ tevs ++ pre ++ evs ++ fevs). split.
              ** cbn [snd trace add_events]. rewrite P1. cbn [trace add_events].
                 rewrite <- !app_assoc. reflexivity.
              ** rewrite !external_app, Text, P2, T2, F1. cbn [fst].
                 pose proof (run_finished cfg e w tok b k content results) as R.
                 rewrite Hp in R. unfold posts in R. rewrite Hp in R.
                 apply R; auto; try discriminate; rewrite Ht; reflexivity.
           ++ destruct (T5 x eq_refl) as [Hn Hx].
              exists (banner ++ tevs ++ pre ++ evs). split.
              ** cbn [snd trace add_events]. rewrite P1. cbn [trace add_events].
                 rewrite <- !app_assoc. reflexivity.
              ** rewrite !external_app, Text, P2, T2. cbn [fst].
                 pose proof (run_upload_raised cfg e w tok b k content n x) as R.
                 rewrite Hp in R. unfold posts in R. rewrite Hp in R.
                 apply R; auto; rewrite Ht; reflexivity.
      * exists (banner ++ tevs ++
                [EvPrint MsgStep2; EvTempCreate (scratch_path e k);
                 EvS3Download (AWS_REGION cfg) b k (scratch_path e k)]).
        split.
        -- unfold world_at_download, add_events.
           cbn [snd fs trace]. rewrite <- !app_assoc. reflexivity.
        -- rewrite !external_app, Text. cbn [fst].
           apply (run_download_failed cfg e w tok b k); auto; rewrite Ht; reflexivity.
      * exists (banner ++ tevs ++
                [EvPrint MsgStep2; EvTempCreate (scratch_path e k);
                 EvS3Download (AWS_REGION cfg) b k (scratch_path e k)]).
        split.
        -- unfold world_at_download, add_events.
           cbn [snd fs trace]. rewrite <- !app_assoc. reflexivity.
        -- rewrite !external_app, Text. cbn [fst].
           apply (run_download_failed cfg e w tok b k); auto; rewrite Ht; reflexivity.
    + exists (banner ++ tevs). split.
      * cbn [snd trace add_events]. now rewrite <- app_assoc.
      * rewrite external_app, Text. cbn [fst].
        apply run_token_failed; [assumption|]. now rewrite Ht.
  - rewrite (main_missing_bucket cfg e w Hbk).
    destruct (get_zoho_access_token cfg e (add_events w banner)) as [[tok|x] w2] eqn:Ht;
      simpl in Tw; subst w2.
    + exists (banner ++ tevs ++ [EvPrint MsgStep2]). split.
      * cbn [snd trace add_events]. now rewrite <- !app_assoc.
      * rewrite !external_app, Text. cbn [fst].
        apply (run_no_bucket cfg e w tok); [now rewrite Ht|assumption].
    + exists (banner ++ tevs). split.
      * cbn [snd trace add_events]. now rewrite <- app_assoc.
      * rewrite external_app, Text. cbn [fst].
        apply run_token_failed; [assumption|]. now rewrite Ht.
Qed.

End RunShapeMain.


Section DownloadFailure.

Variable cfg : config.
Variable e : env.
Variable w : world.


End DownloadFailure.



(* ================================================================== *)
(** ** A run that goes well *)
(* ================================================================== *)

Section Delivery.

Variable cfg : config.
Variable e : env.
Variable tok : value.
Variable path : str.
Variable content : bytes.



End Delivery.



(* ================================================================== *)
(** ** What a run asks for *)
(* ================================================================== *)

Section Asked.

Variable cfg : config.
Variable e : env.
Variable w : world.

Lemma in_external_download (r b k p : str) (evs : list event) :
  In (EvS3Download r b k p) evs -> In (EvS3Download r b k p) (external evs).
Proof. intros H. apply filter_In. now split. Qed.

Lemma download_not_in_posts (r b k p : str) (tok : value) (key : str)
    (content : bytes) (n : nat) :
  ~ In (EvS3Download r b k p) (posts cfg e tok key content n).
Proof.
  unfold posts. intros H. apply in_map_iff in H as (uid & H & _). discriminate.
Qed.

Lemma download_in_staged (r b k p b' k' : str) :
  In (EvS3Download r b k p) (token_post cfg :: staged cfg e b' k') ->
  r = AWS_REGION cfg /\ b = b' /\ k = k' /\ p = scratch_path e k'.
Proof.
  simpl. intros [H|[H|[H|[]]]]; try discriminate H.
  injection H as <- <- <- <-. repeat split; reflexivity.
Qed.

(** Every download of a run is the one of the configured object. *)
Lemma main_downloads (r b k p : str) :
  In (EvS3Download r b k p) (trace (snd (main cfg e w))) ->
  In (EvS3Download r b k p) (trace w) \/
  (r = AWS_REGION cfg /\
   AWS_S3_BUCKET cfg = Some b /\ AWS_S3_FILE_KEY cfg = Some k /\
   truthy b = true /\ truthy k = true /\ p = scratch_path e k).
Proof.
  destruct (main_run_shape cfg e w) as (evs & -> & Hshape).
  intros H. apply in_app_or in H as [H|H]; [now left|right].
  apply in_external_download in H.
  inversion Hshape as
    [ Hc Ho He
    | x Hc Ht Ho He
    | tok Ht Hbk Ho He
    | tok b' k' x Ht Hb Hk Tb Tk Hs Ho He
    | tok b' k' content Ht Hb Hk Tb Tk Hs Hp Ho He
    | tok b' k' content n x Ht Hb Hk Tb Tk Hs Hn Hx Ho He
    | tok b' k' content results Ht Hb Hk Tb Tk Hs Hp Hm Ho He ];
    rewrite <- He in H.
  - destruct H.
  - destruct H as [H|[]]. discriminate H.
  - destruct H as [H|[]]. discriminate H.
  - apply download_in_staged in H as (-> & -> & -> & ->). repeat split; assumption.
  - apply download_in_staged in H as (-> & -> & -> & ->). repeat split; assumption.
  - apply (in_app_or (token_post cfg :: staged cfg e b' k')
             (posts cfg e tok k' content n)) in H.
    destruct H as [H|H]; [|now apply download_not_in_posts in H].
    apply download_in_staged in H as (-> & -> & -> & ->). repeat split; assumption.
  - apply (in_app_or (token_post cfg :: staged cfg e b' k')
             (posts cfg e tok k' content _ ++ [EvUnlink (scratch_path e k')])) in H.
    destruct H as [H|H].
    + apply download_in_staged in H as (-> & -> & -> & ->). repeat split; assumption.
    + apply in_app_or in H as [H|H]; [now apply download_not_in_posts in H|].
      destruct H as [H|[]]. discriminate H.
Qed.

End Asked.

(** X11. A run asks for what the environment variables say.  The
    download is for the bucket and the key that are set, neither empty,
    in the region of [AWS_REGION], which is [ap-south-1] when the
    variable is unset.  Every upload goes to the files endpoint with the
    comment of [main] and the bot name of [ZOHO_BOT_NAME], which is
    [Metal Price Tracker] when the variable is unset.  A variable that
    is set is used as it is, even when empty. *)
Theorem main_asks_for_the_configured_names :
  forall environ e w,
    let run := main (load_config environ) e w in
    (forall r b k p,
        In (EvS3Download r b k p) (trace (snd run)) ->
        In (EvS3Download r b k p) (trace w) \/
        (r = match environ_get environ (py "AWS_REGION") with
             | Some v => v
             | None => py "ap-south-1"
             end /\
         environ_get environ (py "AWS_S3_BUCKET") = Some b /\
         environ_get environ (py "AWS_S3_FILE_KEY") = Some k /\
         b <> [] /\ k <> [] /\ p = scratch_path e k))
    /\ (forall r,
          In (EvCliqPost r) (trace (snd run)) ->
          In (EvCliqPost r) (trace w) \/
          (req_bot_name r = match environ_get environ (py "ZOHO_BOT_NAME") with
                            | Some v => v
                            | None => py "Metal Price Tracker"
                            end /\
           req_comments r = [py "Metal Price Update"] /\
           req_url r = ZOHO_CLIQ_FILES_URL)).
Proof.
  intros environ e w run. subst run. split.
  - intros r b k p H.
    destruct (main_downloads (load_config environ) e w r b k p H)
      as [Hw|(-> & Hb & Hk & Tb & Tk & ->)]; [now left|right].
    repeat split; try assumption; now apply truthy_true.
  - intros r H.
    destruct (main_posts (load_config environ) e w r H)
      as [Hw|(key & tok & content & uid & _ & _ & ->)]; [now left|right].
    repeat split.
Qed.

Lemma main_asks_for_the_configured_names_witness :
  In (EvCliqPost (request_of sample_config (VStr (py "1000.access"))
                    (py "/tmp/tmpab12cd34.xlsx") sample_object (py "101")))
    (trace initial_world) \/
  (req_bot_name (request_of sample_config (VStr (py "1000.access"))
                   (py "/tmp/tmpab12cd34.xlsx") sample_object (py "101"))
   = match environ_get sample_environ (py "ZOHO_BOT_NAME") with
     | Some v => v
     | None => py "Metal Price Tracker"
     end /\
   req_comments (request_of sample_config (VStr (py "1000.access"))
                   (py "/tmp/tmpab12cd34.xlsx") sample_object (py "101"))
   = [py "Metal Price Update"] /\
   req_url (request_of sample_config (VStr (py "1000.access"))
              (py "/tmp/tmpab12cd34.xlsx") sample_object (py "101"))
   = ZOHO_CLIQ_FILES_URL).
Proof.
  apply (proj2 (main_asks_for_the_configured_names sample_environ
                  (sample_env all_delivered) initial_world)).
  vm_compute. repeat (try (left; reflexivity); right).
Defined.

(* ================================================================== *)
(** ** The suffix of the scratch file *)
(* ================================================================== *)

Section Suffix.




End Suffix.

